(** * task-api: the in-memory user and task collections and the access gate

    A shallow embedding of [task.go]: the two package-level slices [users]
    and [tasks], the ten gin handlers registered by [main], and the
    [authMiddleware] that guards the task routes.  Handlers are functions
    from a request context and the process state to a new context and a new
    process state. *)

From Stdlib Require Import ZArith Lia Ascii String.
From stdpp Require Import base numbers list strings gmap.

Set Warnings "-register-all".
Local Open Scope Z_scope.

(** ** Machine integers

    Go's [int] and [uint] are 64 bits wide on the platforms gin runs on.
    Values are kept in [Z]; every arithmetic step that can leave the range
    is followed by the wrap the hardware performs. *)

Module GoInt.

Definition int_min : Z := - 2 ^ 63.
Definition int_max : Z := 2 ^ 63 - 1.
Definition uint_max : Z := 2 ^ 64 - 1.

(** Two's complement wrap into [int_min .. int_max]. *)
Definition wrap_int (z : Z) : Z := (z + 2 ^ 63) mod 2 ^ 64 - 2 ^ 63.

(** Wrap into [0 .. uint_max]. *)
Definition wrap_uint (z : Z) : Z := z mod 2 ^ 64.

Definition int_add (a b : Z) : Z := wrap_int (a + b).
Definition int_sub (a b : Z) : Z := wrap_int (a - b).

(** The conversion [uint(x)] of an [int]. *)
Definition uint (x : Z) : Z := wrap_uint x.

Definition in_int (z : Z) : Prop := int_min <= z <= int_max.

End GoInt.

(** ** [strconv.Atoi]

    The handlers parse the [:id] path parameter with [strconv.Atoi] from
    Go's standard library: an optional sign, then one or more decimal
    digits, and the value has to fit an [int]. *)

Module strconv.

(** [ch -= '0'; if ch > 9 { error }] on a byte: the subtraction wraps
    modulo 256, so bytes below ['0'] end up above 9. *)
Definition digit (ch : ascii) : option Z :=
  let d := (Z.of_N (N_of_ascii ch) - 48) mod 256 in
  if d >? 9 then None else Some d.

(** The digit loop [n = n*10 + int(ch)]. *)
Fixpoint digits (s : string) (n : Z) : option Z :=
  match s with
  | EmptyString => Some n
  | String ch s' =>
      match digit ch with
      | None => None
      | Some d => digits s' (n * 10 + d)
      end
  end.

Inductive NumError : Type := ErrSyntax | ErrRange.

(** The result pair [(int, error)]; [None] is the nil error.  A syntax
    error comes with the value 0, a range error with the nearest
    bound. *)
Definition Atoi (s : string) : Z * option NumError :=
  match s with
  | EmptyString => (0, Some ErrSyntax)
  | String ch0 rest =>
      let neg := Ascii.eqb ch0 "-"%char in
      let body := if neg || Ascii.eqb ch0 "+"%char then rest else s in
      match body with
      | EmptyString => (0, Some ErrSyntax)
      | _ =>
          match digits body 0 with
          | None => (0, Some ErrSyntax)
          | Some n =>
              let v := if neg then - n else n in
              if v <? GoInt.int_min then (GoInt.int_min, Some ErrRange)
              else if v >? GoInt.int_max then (GoInt.int_max, Some ErrRange)
              else (v, None)
          end
      end
  end.

(** The decimal rendering of a non-negative number, most significant
    digit first ([strconv.Itoa] on [0 .. int_max]); [fuel] bounds the
    number of digits. *)
Definition digit_char (d : Z) : ascii := ascii_of_N (Z.to_N (48 + d)).

Fixpoint render (fuel : nat) (n : Z) (acc : string) : string :=
  match fuel with
  | O => acc
  | S fuel' =>
      let acc' := String (digit_char (n mod 10)) acc in
      if n <? 10 then acc' else render fuel' (n / 10) acc'
  end.

Definition Itoa (n : Z) : string := render 20 n EmptyString.

End strconv.

(** ** Entities *)

(** [time.Time], as a reading of the process clock. *)
Definition Time : Type := Z.

Definition zero_time : Time := 0.

Record User : Type := mkUser {
  User_ID : Z;              (* uint, json:"id" *)
  User_Name : string;       (* json:"name" *)
  User_Email : string;      (* json:"email" *)
  User_Password : string;   (* json:"-" *)
  User_CreatedAt : Time;    (* json:"created_at" *)
  User_UpdatedAt : Time     (* json:"updated_at" *)
}.

Record Task : Type := mkTask {
  Task_ID : Z;              (* uint, json:"id" *)
  Task_UserID : Z;          (* uint, json:"user_id" *)
  Task_Title : string;      (* json:"title" *)
  Task_Description : string;(* json:"description" *)
  Task_Status : string;     (* json:"status" *)
  Task_CreatedAt : Time;    (* json:"created_at" *)
  Task_UpdatedAt : Time     (* json:"updated_at" *)
}.

(** The zero values that [var user User] and [var task Task] declare. *)
Definition zero_User : User := mkUser 0 EmptyString EmptyString EmptyString zero_time zero_time.
Definition zero_Task : Task := mkTask 0 0 EmptyString EmptyString EmptyString zero_time zero_time.

(** Field assignments [user.ID = ...], [user.CreatedAt = ...], ... *)
Definition User_set_ID (v : Z) (u : User) : User :=
  mkUser v (User_Name u) (User_Email u) (User_Password u)
         (User_CreatedAt u) (User_UpdatedAt u).
Definition User_set_CreatedAt (t : Time) (u : User) : User :=
  mkUser (User_ID u) (User_Name u) (User_Email u) (User_Password u)
         t (User_UpdatedAt u).
Definition User_set_UpdatedAt (t : Time) (u : User) : User :=
  mkUser (User_ID u) (User_Name u) (User_Email u) (User_Password u)
         (User_CreatedAt u) t.
Definition User_set_Password (p : string) (u : User) : User :=
  mkUser (User_ID u) (User_Name u) (User_Email u) p
         (User_CreatedAt u) (User_UpdatedAt u).

Definition Task_set_ID (v : Z) (t : Task) : Task :=
  mkTask v (Task_UserID t) (Task_Title t) (Task_Description t)
         (Task_Status t) (Task_CreatedAt t) (Task_UpdatedAt t).
Definition Task_set_CreatedAt (x : Time) (t : Task) : Task :=
  mkTask (Task_ID t) (Task_UserID t) (Task_Title t) (Task_Description t)
         (Task_Status t) x (Task_UpdatedAt t).
Definition Task_set_UpdatedAt (x : Time) (t : Task) : Task :=
  mkTask (Task_ID t) (Task_UserID t) (Task_Title t) (Task_Description t)
         (Task_Status t) (Task_CreatedAt t) x.

(** ** The wire form

    What [encoding/json] reads and writes for the two structs, as the
    struct tags say.  A field that is absent from (or [null] in) an incoming
    object is [None]; decoding leaves the corresponding struct field as it
    was.  The tag [json:"-"] removes [Password] from both directions, so
    the wire record of a [User] has no slot for it. *)

Record UserJSON : Type := mkUserJSON {
  j_user_id : option Z;
  j_user_name : option string;
  j_user_email : option string;
  j_user_created_at : option Time;
  j_user_updated_at : option Time
}.

Record TaskJSON : Type := mkTaskJSON {
  j_task_id : option Z;
  j_task_user_id : option Z;
  j_task_title : option string;
  j_task_description : option string;
  j_task_status : option string;
  j_task_created_at : option Time;
  j_task_updated_at : option Time
}.

(** Storing a decoded object into the struct the caller passed. *)
Definition unmarshal_User (j : UserJSON) (u : User) : User :=
  mkUser (default (User_ID u) (j_user_id j))
         (default (User_Name u) (j_user_name j))
         (default (User_Email u) (j_user_email j))
         (User_Password u)
         (default (User_CreatedAt u) (j_user_created_at j))
         (default (User_UpdatedAt u) (j_user_updated_at j)).

Definition unmarshal_Task (j : TaskJSON) (t : Task) : Task :=
  mkTask (default (Task_ID t) (j_task_id j))
         (default (Task_UserID t) (j_task_user_id j))
         (default (Task_Title t) (j_task_title j))
         (default (Task_Description t) (j_task_description j))
         (default (Task_Status t) (j_task_status j))
         (default (Task_CreatedAt t) (j_task_created_at j))
         (default (Task_UpdatedAt t) (j_task_updated_at j)).

(** JSON documents written to the response.  [JTime t] is the RFC 3339
    string of [t]. *)
Inductive JValue : Type :=
| JNull
| JNumber (n : Z)
| JString (s : string)
| JTime (t : Time)
| JArray (items : list JValue)
| JObject (members : list (string * JValue)).

Definition marshal_User (u : User) : JValue :=
  JObject [("id", JNumber (User_ID u));
           ("name", JString (User_Name u));
           ("email", JString (User_Email u));
           ("created_at", JTime (User_CreatedAt u));
           ("updated_at", JTime (User_UpdatedAt u))].

Definition marshal_Task (t : Task) : JValue :=
  JObject [("id", JNumber (Task_ID t));
           ("user_id", JNumber (Task_UserID t));
           ("title", JString (Task_Title t));
           ("description", JString (Task_Description t));
           ("status", JString (Task_Status t));
           ("created_at", JTime (Task_CreatedAt t));
           ("updated_at", JTime (Task_UpdatedAt t))].

(** [gin.H{key: msg}] with a single text member. *)
Definition H (key msg : string) : JValue := JObject [(key, JString msg)].

(** The member names of an object, [[]] for any other document. *)
Definition member_names (v : JValue) : list string :=
  match v with
  | JObject members => map fst members
  | _ => []
  end.

(** ** Slices

    [None] is the nil slice that [var users []User] declares; it has length
    0 like the empty slice but is written to the wire as [null]. *)

Definition slice (A : Type) : Type := option (list A).

Definition elems {A} (s : slice A) : list A := default [] s.

(** [len(s)]. *)
Definition len {A} (s : slice A) : Z := Z.of_nat (length (elems s)).

(** [append(s, x)]: the result is never nil. *)
Definition append {A} (s : slice A) (x : A) : slice A := Some (elems s ++ [x]).

(** [s[i]]; [None] is the run-time panic of an index out of range. *)
Definition index {A} (s : slice A) (i : Z) : option A :=
  if (0 <=? i) && (i <? len s) then elems s !! Z.to_nat i else None.

(** [s[i] = x]; [None] is the run-time panic. *)
Definition store {A} (s : slice A) (i : Z) (x : A) : option (slice A) :=
  if (0 <=? i) && (i <? len s)
  then Some (Some (<[Z.to_nat i := x]> (elems s))) else None.

(** [append(s[:i], s[j:]...)]: the elements before position [i] followed
    by those from position [j] on, written over the same backing array (the
    handlers assign the result back to the only variable that holds the
    slice).  [None] is the run-time panic of a slice bound out of range;
    the handlers only get here with [i < j <= len(s)], and a bound beyond
    the length counts as out of range.  On a nil slice both bounds have to
    be 0 and the result is nil again. *)
Definition splice {A} (s : slice A) (i j : Z) : option (slice A) :=
  if (0 <=? i) && (i <=? len s) && (0 <=? j) && (j <=? len s)
  then Some (match s with
             | None => None
             | Some l => Some (take (Z.to_nat i) l ++ drop (Z.to_nat j) l)
             end)
  else None.

Definition marshal_slice {A} (f : A → JValue) (s : slice A) : JValue :=
  match s with
  | None => JNull
  | Some l => JArray (map f l)
  end.

(** ** The request context of gin *)

Definition StatusOK : Z := 200.
Definition StatusCreated : Z := 201.
Definition StatusBadRequest : Z := 400.
Definition StatusUnauthorized : Z := 401.
Definition StatusNotFound : Z := 404.
Definition StatusInternalServerError : Z := 500.

(** What has been written to the client: the status code and, when the
    handler rendered a document, its body. *)
Record Response : Type := mkResponse {
  status : Z;
  body : option JValue
}.

(** The parts of [*gin.Context] the program touches: the path parameters,
    the request headers and body, the per-request key/value store, the
    response written so far, and whether the handler chain was aborted. *)
Record Context : Type := mkContext {
  Params : list (string * string);
  Header : gmap string string;
  Body : string;
  Keys : gmap string User;
  Writer : option Response;
  aborted : bool
}.

(** [c.Param(key)]: the value of the first parameter of that name, or the
    empty string. *)
Fixpoint lookup_param (key : string) (ps : list (string * string)) : string :=
  match ps with
  | [] => EmptyString
  | (k, v) :: ps' => if String.eqb k key then v else lookup_param key ps'
  end.

Definition Param (key : string) (c : Context) : string :=
  lookup_param key (Params c).

(** [c.GetHeader(key)]: the empty string when the header is absent. *)
Definition GetHeader (key : string) (c : Context) : string :=
  default EmptyString (Header c !! key).

(** [c.Set(key, value)]. *)
Definition Set_ (key : string) (value : User) (c : Context) : Context :=
  mkContext (Params c) (Header c) (Body c) (<[key := value]> (Keys c))
            (Writer c) (aborted c).

(** [c.JSON(code, obj)], with [obj] already serialized. *)
Definition JSON (code : Z) (obj : JValue) (c : Context) : Context :=
  mkContext (Params c) (Header c) (Body c) (Keys c)
            (Some (mkResponse code (Some obj))) (aborted c).

(** [c.Abort()]: no later handler of the chain runs. *)
Definition Abort (c : Context) : Context :=
  mkContext (Params c) (Header c) (Body c) (Keys c) (Writer c) true.

(** What [gin.Recovery()] leaves behind after a handler panicked:
    [c.AbortWithStatus(500)]. *)
Definition recovered (c : Context) : Context :=
  mkContext (Params c) (Header c) (Body c) (Keys c)
            (Some (mkResponse StatusInternalServerError None)) true.

(** The status code sent to the client; gin answers 200 when no handler
    wrote anything. *)
Definition status_of (c : Context) : Z :=
  match Writer c with
  | Some r => status r
  | None => StatusOK
  end.

(** ** Process state

    The two package-level slices, and the number of times the clock has
    been read so far. *)
Record World : Type := mkWorld {
  users : slice User;
  tasks : slice Task;
  reads : nat
}.

Definition set_users (us : slice User) (w : World) : World :=
  mkWorld us (tasks w) (reads w).
Definition set_tasks (ts : slice Task) (w : World) : World :=
  mkWorld (users w) ts (reads w).

(** The state at program start: both slices nil. *)
Definition init : World := mkWorld None None 0.

Definition Handler : Type := Context → World → Context * World.

(** ** The access gate *)

(** [getUserInfoFromToken]: the resolved identity, which is the fixed
    [dummyUser] of the function body, and the error; [None] is the nil
    error. *)
Definition dummyUser : User :=
  mkUser 1 "John Doe" "john.doe@example.com" EmptyString zero_time zero_time.

Definition getUserInfoFromToken (token : string) : User * option string :=
  (dummyUser, None).

(** [authMiddleware]; [next] is the rest of the handler chain, which
    [c.Next()] runs. *)
Definition authMiddleware (next : Handler) : Handler := fun c w =>
  let token := GetHeader "Authorization" c in
  if String.eqb token EmptyString then
    (Abort (JSON StatusUnauthorized (H "error" "Unauthorized: Missing token") c), w)
  else
    let '(userInfo, err) := getUserInfoFromToken token in
    match err with
    | Some e =>
        (Abort (JSON StatusUnauthorized (H "error" ("Unauthorized: " +:+ e)) c), w)
    | None => next (Set_ "userInfo" userInfo c) w
    end.

(** ** The handlers

    Two collaborators stay outside the program and are parameters here:
    the JSON decoder behind [c.ShouldBindJSON], which turns a request body
    into either an error text or the decoded object, and the clock behind
    [time.Now], given by its successive readings. *)

Section Server.

Variable decode_User : string → string + UserJSON.
Variable decode_Task : string → string + TaskJSON.
Variable clock : nat → Time.

(** [c.ShouldBindJSON(&user)]: the error text, or the struct after the
    decoder stored into it. *)
Definition ShouldBindJSON_User (c : Context) (user : User) : string + User :=
  match decode_User (Body c) with
  | inl err => inl err
  | inr j => inr (unmarshal_User j user)
  end.

Definition ShouldBindJSON_Task (c : Context) (task : Task) : string + Task :=
  match decode_Task (Body c) with
  | inl err => inl err
  | inr j => inr (unmarshal_Task j task)
  end.

(** [time.Now()]. *)
Definition time_Now (w : World) : Time * World :=
  (clock (reads w), mkWorld (users w) (tasks w) (S (reads w))).

(** *** User handlers *)

Definition createUser : Handler := fun c w =>
  match ShouldBindJSON_User c zero_User with
  | inl err => (JSON StatusBadRequest (H "error" err) c, w)
  | inr user =>
      let user := User_set_ID (GoInt.uint (GoInt.int_add (len (users w)) 1)) user in
      let '(now1, w) := time_Now w in
      let user := User_set_CreatedAt now1 user in
      let '(now2, w) := time_Now w in
      let user := User_set_UpdatedAt now2 user in
      let w := set_users (append (users w) user) w in
      (JSON StatusCreated (marshal_User user) c, w)
  end.

Definition getUsers : Handler := fun c w =>
  (JSON StatusOK (marshal_slice marshal_User (users w)) c, w).

Definition getUserByID : Handler := fun c w =>
  let '(id, err) := strconv.Atoi (Param "id" c) in
  if bool_decide (err ≠ None) || (id <? 1) || (id >? len (users w)) then
    (JSON StatusNotFound (H "error" "User not found") c, w)
  else
    match index (users w) (GoInt.int_sub id 1) with
    | None => (recovered c, w)
    | Some user => (JSON StatusOK (marshal_User user) c, w)
    end.

Definition updateUser : Handler := fun c w =>
  let '(id, err) := strconv.Atoi (Param "id" c) in
  if bool_decide (err ≠ None) || (id <? 1) || (id >? len (users w)) then
    (JSON StatusNotFound (H "error" "User not found") c, w)
  else
    match ShouldBindJSON_User c zero_User with
    | inl err => (JSON StatusBadRequest (H "error" err) c, w)
    | inr updatedUser =>
        let updatedUser := User_set_ID (GoInt.uint id) updatedUser in
        match index (users w) (GoInt.int_sub id 1) with
        | None => (recovered c, w)
        | Some old =>
            let updatedUser := User_set_CreatedAt (User_CreatedAt old) updatedUser in
            let '(now, w) := time_Now w in
            let updatedUser := User_set_UpdatedAt now updatedUser in
            match store (users w) (GoInt.int_sub id 1) updatedUser with
            | None => (recovered c, w)
            | Some us =>
                (JSON StatusOK (marshal_User updatedUser) c, set_users us w)
            end
        end
    end.

Definition deleteUser : Handler := fun c w =>
  let '(id, err) := strconv.Atoi (Param "id" c) in
  if bool_decide (err ≠ None) || (id <? 1) || (id >? len (users w)) then
    (JSON StatusNotFound (H "error" "User not found") c, w)
  else
    match splice (users w) (GoInt.int_sub id 1) id with
    | None => (recovered c, w)
    | Some us =>
        (JSON StatusOK (H "message" "User deleted") c, set_users us w)
    end.

(** *** Task handlers *)

Definition createTask : Handler := fun c w =>
  match ShouldBindJSON_Task c zero_Task with
  | inl err => (JSON StatusBadRequest (H "error" err) c, w)
  | inr task =>
      let task := Task_set_ID (GoInt.uint (GoInt.int_add (len (tasks w)) 1)) task in
      let '(now1, w) := time_Now w in
      let task := Task_set_CreatedAt now1 task in
      let '(now2, w) := time_Now w in
      let task := Task_set_UpdatedAt now2 task in
      let w := set_tasks (append (tasks w) task) w in
      (JSON StatusCreated (marshal_Task task) c, w)
  end.

Definition getTasks : Handler := fun c w =>
  (JSON StatusOK (marshal_slice marshal_Task (tasks w)) c, w).

Definition getTaskByID : Handler := fun c w =>
  let '(id, err) := strconv.Atoi (Param "id" c) in
  if bool_decide (err ≠ None) || (id <? 1) || (id >? len (tasks w)) then
    (JSON StatusNotFound (H "error" "Task not found") c, w)
  else
    match index (tasks w) (GoInt.int_sub id 1) with
    | None => (recovered c, w)
    | Some task => (JSON StatusOK (marshal_Task task) c, w)
    end.

Definition updateTask : Handler := fun c w =>
  let '(id, err) := strconv.Atoi (Param "id" c) in
  if bool_decide (err ≠ None) || (id <? 1) || (id >? len (tasks w)) then
    (JSON StatusNotFound (H "error" "Task not found") c, w)
  else
    match ShouldBindJSON_Task c zero_Task with
    | inl err => (JSON StatusBadRequest (H "error" err) c, w)
    | inr updatedTask =>
        let updatedTask := Task_set_ID (GoInt.uint id) updatedTask in
        match index (tasks w) (GoInt.int_sub id 1) with
        | None => (recovered c, w)
        | Some old =>
            let updatedTask := Task_set_CreatedAt (Task_CreatedAt old) updatedTask in
            let '(now, w) := time_Now w in
            let updatedTask := Task_set_UpdatedAt now updatedTask in
            match store (tasks w) (GoInt.int_sub id 1) updatedTask with
            | None => (recovered c, w)
            | Some ts =>
                (JSON StatusOK (marshal_Task updatedTask) c, set_tasks ts w)
            end
        end
    end.

Definition deleteTask : Handler := fun c w =>
  let '(id, err) := strconv.Atoi (Param "id" c) in
  if bool_decide (err ≠ None) || (id <? 1) || (id >? len (tasks w)) then
    (JSON StatusNotFound (H "error" "Task not found") c, w)
  else
    match splice (tasks w) (GoInt.int_sub id 1) id with
    | None => (recovered c, w)
    | Some ts =>
        (JSON StatusOK (H "message" "Task deleted") c, set_tasks ts w)
    end.

(** *** Routing

    The routes [main] registers.  The user group has no middleware of
    its own; the task group runs [authMiddleware] before each handler.
    (The engine-wide [gin.Logger] writes a log line and nothing else;
    [gin.Recovery] is the [recovered] branch of the handlers.) *)

Inductive Route : Type :=
| POST_users | GET_users | GET_users_id | PUT_users_id | DELETE_users_id
| POST_tasks | GET_tasks | GET_tasks_id | PUT_tasks_id | DELETE_tasks_id.

(** The handler registered on a route of the task group. *)
Definition task_handler (r : Route) : option Handler :=
  match r with
  | POST_tasks => Some createTask
  | GET_tasks => Some getTasks
  | GET_tasks_id => Some getTaskByID
  | PUT_tasks_id => Some updateTask
  | DELETE_tasks_id => Some deleteTask
  | _ => None
  end.

(** The routes whose path ends in [/:id]. *)
Definition has_id (r : Route) : bool :=
  match r with
  | GET_users_id | PUT_users_id | DELETE_users_id
  | GET_tasks_id | PUT_tasks_id | DELETE_tasks_id => true
  | _ => false
  end.

Definition route (r : Route) : Handler :=
  match r with
  | POST_users => createUser
  | GET_users => getUsers
  | GET_users_id => getUserByID
  | PUT_users_id => updateUser
  | DELETE_users_id => deleteUser
  | POST_tasks => authMiddleware createTask
  | GET_tasks => authMiddleware getTasks
  | GET_tasks_id => authMiddleware getTaskByID
  | PUT_tasks_id => authMiddleware updateTask
  | DELETE_tasks_id => authMiddleware deleteTask
  end.

(** An incoming request: the route it matched, the text in the place of
    [:id] (unused on routes without one), its headers and its body. *)
Record Request : Type := mkRequest {
  req_route : Route;
  req_id : string;
  req_header : gmap string string;
  req_body : string
}.

(** The fresh context gin hands to the first handler of the chain. *)
Definition new_context (q : Request) : Context :=
  mkContext (if has_id (req_route q) then [("id", req_id q)] else [])
            (req_header q) (req_body q) ∅ None false.

Definition serve (q : Request) (w : World) : Context * World :=
  route (req_route q) (new_context q) w.

(** The state after serving a list of requests one after the other. *)
Fixpoint run (qs : list Request) (w : World) : World :=
  match qs with
  | [] => w
  | q :: qs' => run qs' (serve q w).2
  end.

(** The states the process can be in. *)
Inductive reachable : World → Prop :=
| reachable_init : reachable init
| reachable_serve q w : reachable w → reachable (serve q w).2.

End Server.

(** The record [createUser] stores: the decoded object on top of the zero
    value, then the identifier and the two clock readings. *)
Definition created_User (j : UserJSON) (n : Z) (now1 now2 : Time) : User :=
  User_set_UpdatedAt now2
    (User_set_CreatedAt now1
       (User_set_ID (GoInt.uint (GoInt.int_add n 1)) (unmarshal_User j zero_User))).

Definition created_Task (j : TaskJSON) (n : Z) (now1 now2 : Time) : Task :=
  Task_set_UpdatedAt now2
    (Task_set_CreatedAt now1
       (Task_set_ID (GoInt.uint (GoInt.int_add n 1)) (unmarshal_Task j zero_Task))).

(** The record [updateUser] stores in the place of [old]. *)
Definition updated_User (j : UserJSON) (id : Z) (old : User) (now : Time) : User :=
  User_set_UpdatedAt now
    (User_set_CreatedAt (User_CreatedAt old)
       (User_set_ID (GoInt.uint id) (unmarshal_User j zero_User))).

Definition updated_Task (j : TaskJSON) (id : Z) (old : Task) (now : Time) : Task :=
  Task_set_UpdatedAt now
    (Task_set_CreatedAt (Task_CreatedAt old)
       (Task_set_ID (GoInt.uint id) (unmarshal_Task j zero_Task))).

(** [after] is [before] without the element at position [k]: everything
    behind it has moved one position to the front. *)
Definition removed_at {A} (k : nat) (before after : list A) : Prop :=
  after = take k before ++ drop (S k) before ∧
  (length after + 1 = length before)%nat ∧
  (∀ i, (i < k)%nat → after !! i = before !! i) ∧
  (∀ i, (k ≤ i)%nat → after !! i = before !! S i).

(** A text contains another one. *)
Definition contains (s sub : string) : Prop :=
  ∃ pre post, s = pre +:+ sub +:+ post.

(** ** Numeric path parameters

    A text is numeric when it is an optional sign followed by at least one
    decimal digit. *)

Definition is_digit (ch : ascii) : bool :=
  (48 <=? Z.of_N (N_of_ascii ch)) && (Z.of_N (N_of_ascii ch) <=? 57).

Fixpoint all_digits (s : string) : bool :=
  match s with
  | EmptyString => true
  | String ch s' => is_digit ch && all_digits s'
  end.

Definition numeric (s : string) : bool :=
  match s with
  | EmptyString => false
  | String ch rest =>
      if Ascii.eqb ch "-"%char || Ascii.eqb ch "+"%char
      then match rest with EmptyString => false | _ => all_digits rest end
      else all_digits s
  end.

(** ** Effects on the process state

    The ways one request can change the process state: not at all, or by
    the append of a create, the overwrite of an update, or the compaction
    of a delete, on either collection. *)

Section Effects.

Variable clock : nat → Time.

Inductive effect (w : World) : World → Prop :=
| effect_none : effect w w
| effect_createUser j :
    effect w (mkWorld
                (append (users w)
                   (created_User j (len (users w))
                      (clock (reads w)) (clock (S (reads w)))))
                (tasks w) (S (S (reads w))))
| effect_updateUser j id old :
    1 ≤ id ≤ len (users w) →
    elems (users w) !! Z.to_nat (id - 1) = Some old →
    effect w (mkWorld
                (Some (<[Z.to_nat (id - 1) :=
                           updated_User j id old (clock (reads w))]>
                         (elems (users w))))
                (tasks w) (S (reads w)))
| effect_deleteUser id :
    1 ≤ id ≤ len (users w) →
    effect w (mkWorld
                (Some (take (Z.to_nat (id - 1)) (elems (users w))
                       ++ drop (Z.to_nat id) (elems (users w))))
                (tasks w) (reads w))
| effect_createTask j :
    effect w (mkWorld (users w)
                (append (tasks w)
                   (created_Task j (len (tasks w))
                      (clock (reads w)) (clock (S (reads w)))))
                (S (S (reads w))))
| effect_updateTask j id old :
    1 ≤ id ≤ len (tasks w) →
    elems (tasks w) !! Z.to_nat (id - 1) = Some old →
    effect w (mkWorld (users w)
                (Some (<[Z.to_nat (id - 1) :=
                           updated_Task j id old (clock (reads w))]>
                         (elems (tasks w))))
                (S (reads w)))
| effect_deleteTask id :
    1 ≤ id ≤ len (tasks w) →
    effect w (mkWorld (users w)
                (Some (take (Z.to_nat (id - 1)) (elems (tasks w))
                       ++ drop (Z.to_nat id) (elems (tasks w))))
                (reads w)).

(** Every [UpdatedAt] in the store is a clock reading taken earlier. *)
Definition stamped (w : World) : Prop :=
  Forall (λ u, ∃ k, (k < reads w)%nat ∧ User_UpdatedAt u = clock k)
         (elems (users w)) ∧
  Forall (λ t, ∃ k, (k < reads w)%nat ∧ Task_UpdatedAt t = clock k)
         (elems (tasks w)).

(** The clock never runs backwards. *)
Definition monotone : Prop :=
  ∀ i k : nat, (i ≤ k)%nat → clock i ≤ clock k.

End Effects.

(** ** The two collections, side by side

    [main] registers the same five operations on each collection; the
    handlers differ in the entity type only.  To state a property once for
    both, the operations are indexed by the collection. *)

Inductive Collection : Type := Users | Tasks.

Definition record (k : Collection) : Type :=
  match k with Users => User | Tasks => Task end.

Definition payload (k : Collection) : Type :=
  match k with Users => UserJSON | Tasks => TaskJSON end.

Definition records (k : Collection) (w : World) : list (record k) :=
  match k with Users => elems (users w) | Tasks => elems (tasks w) end.

(** [len(users)] or [len(tasks)]. *)
Definition count (k : Collection) (w : World) : Z :=
  match k with Users => len (users w) | Tasks => len (tasks w) end.

Definition render (k : Collection) : record k → JValue :=
  match k with Users => marshal_User | Tasks => marshal_Task end.

Definition ident (k : Collection) : record k → Z :=
  match k with Users => User_ID | Tasks => Task_ID end.

Definition created_at (k : Collection) : record k → Time :=
  match k with Users => User_CreatedAt | Tasks => Task_CreatedAt end.

Definition updated_at (k : Collection) : record k → Time :=
  match k with Users => User_UpdatedAt | Tasks => Task_UpdatedAt end.

Definition noun (k : Collection) : string :=
  match k with Users => "User" | Tasks => "Task" end.

(** The struct after binding a decoded object to the zero value. *)
Definition bound (k : Collection) : payload k → record k :=
  match k with
  | Users => λ j, unmarshal_User j zero_User
  | Tasks => λ j, unmarshal_Task j zero_Task
  end.

Definition created (k : Collection) : payload k → Z → Time → Time → record k :=
  match k with Users => created_User | Tasks => created_Task end.

Definition updated (k : Collection) : payload k → Z → record k → Time → record k :=
  match k with Users => updated_User | Tasks => updated_Task end.

(** Two records agree on every field other than the identifier and the two
    timestamps. *)
Definition same_content (k : Collection) : record k → record k → Prop :=
  match k with
  | Users => λ a b,
      User_Name a = User_Name b ∧ User_Email a = User_Email b ∧
      User_Password a = User_Password b
  | Tasks => λ a b,
      Task_UserID a = Task_UserID b ∧ Task_Title a = Task_Title b ∧
      Task_Description a = Task_Description b ∧ Task_Status a = Task_Status b
  end.

(** The slice of the other collection is the same in both states. *)
Definition untouched (k : Collection) (w w' : World) : Prop :=
  match k with Users => tasks w' = tasks w | Tasks => users w' = users w end.

Section Operations.

Variable decode_User : string → string + UserJSON.
Variable decode_Task : string → string + TaskJSON.
Variable clock : nat → Time.

Definition decode (k : Collection) : string → string + payload k :=
  match k with Users => decode_User | Tasks => decode_Task end.

Definition Create (k : Collection) : Handler :=
  match k with
  | Users => createUser decode_User clock
  | Tasks => createTask decode_Task clock
  end.

Definition GetByIdentifier (k : Collection) : Handler :=
  match k with Users => getUserByID | Tasks => getTaskByID end.

Definition Update (k : Collection) : Handler :=
  match k with
  | Users => updateUser decode_User clock
  | Tasks => updateTask decode_Task clock
  end.

Definition Delete (k : Collection) : Handler :=
  match k with Users => deleteUser | Tasks => deleteTask end.

Definition create_route (k : Collection) : Route :=
  match k with Users => POST_users | Tasks => POST_tasks end.

Definition update_route (k : Collection) : Route :=
  match k with Users => PUT_users_id | Tasks => PUT_tasks_id end.

(** A create request on collection [k] that gets through to the store:
    its body decodes and, on the task routes, it carries a token. *)
Definition creates (k : Collection) (q : Request) : Prop :=
  req_route q = create_route k ∧
  (∃ j, decode k (req_body q) = inr j) ∧
  (k = Tasks →
   ∃ token, req_header q !! "Authorization" = Some token ∧ token ≠ EmptyString).

End Operations.

(** No stored user carries a password. *)
Definition Password_empty (w : World) : Prop :=
  Forall (λ u, User_Password u = EmptyString) (elems (users w)).

(** Two users that agree on everything but the password. *)
Definition same_but_Password (u1 u2 : User) : Prop :=
  User_ID u1 = User_ID u2 ∧ User_Name u1 = User_Name u2 ∧
  User_Email u1 = User_Email u2 ∧
  User_CreatedAt u1 = User_CreatedAt u2 ∧ User_UpdatedAt u1 = User_UpdatedAt u2.

(** Two states whose user slices agree record by record on everything but
    the password (and are both nil or both not). *)
Definition same_users_but_Password (w1 w2 : World) : Prop :=
  option_Forall2 (Forall2 same_but_Password) (users w1) (users w2).

(** ** Sample collaborators

    A decoder that knows three request bodies, and a clock that advances by
    one unit per reading; used to run the handlers on concrete requests. *)

Module Sample.

Definition decode_User (body : string) : string + UserJSON :=
  if String.eqb body "alice" then
    inr (mkUserJSON None (Some "Alice") (Some "a@x.com") None None)
  else if String.eqb body "bob" then
    inr (mkUserJSON (Some 7) (Some "Bob") None None (Some 5))
  else if String.eqb body "empty" then
    inr (mkUserJSON None None None None None)
  else inl "invalid character".

Definition decode_Task (body : string) : string + TaskJSON :=
  if String.eqb body "laundry" then
    inr (mkTaskJSON None (Some 1) (Some "Laundry") (Some "whites") (Some "open")
                    None None)
  else if String.eqb body "dishes" then
    inr (mkTaskJSON (Some 9) None (Some "Dishes") None (Some "done") None None)
  else if String.eqb body "empty" then
    inr (mkTaskJSON None None None None None None None)
  else inl "invalid character".

Definition clock (k : nat) : Time := 1000 + Z.of_nat k.

(** A request without headers. *)
Definition request (r : Route) (id body : string) : Request :=
  mkRequest r id ∅ body.

(** A request carrying an [Authorization] header. *)
Definition authorized (r : Route) (id body token : string) : Request :=
  mkRequest r id {[ "Authorization" := token ]} body.

Definition serve := serve decode_User decode_Task clock.
Definition run := run decode_User decode_Task clock.

(** Create requests: a user without a token, a task with one. *)
Definition post_user (body : string) : Request :=
  request POST_users EmptyString body.
Definition post_task (body : string) : Request :=
  authorized POST_tasks EmptyString body "token".

(** The request to delete the user with the given [:id]. *)
Definition delete_user (id : string) : Request :=
  request DELETE_users_id id EmptyString.

(** The request to list the tasks, sent without a token. *)
Definition list_tasks_anonymously : Request :=
  request GET_tasks EmptyString EmptyString.

(** The context of a request for the record with the given [:id]. *)
Definition by_id (id : string) : Context :=
  mkContext [("id", id)] ∅ EmptyString ∅ None false.

(** The context of a request with the given body and no [:id]. *)
Definition body_only (body : string) : Context :=
  mkContext [] ∅ body ∅ None false.

(** The context of a request with the given [:id] and body. *)
Definition with_body (id body : string) : Context :=
  mkContext [("id", id)] ∅ body ∅ None false.

(** The state after Alice and Bob signed up and two tasks were filed. *)
Definition populated : World :=
  run [post_user "alice"; post_user "bob";
       post_task "laundry"; post_task "dishes"] init.

End Sample.

(** ** The routes, by collection and operation *)

Inductive Operation : Type := OpCreate | OpList | OpGet | OpUpdate | OpDelete.

Definition collection_of (r : Route) : Collection :=
  match r with
  | POST_users | GET_users | GET_users_id | PUT_users_id | DELETE_users_id => Users
  | POST_tasks | GET_tasks | GET_tasks_id | PUT_tasks_id | DELETE_tasks_id => Tasks
  end.

Definition operation_of (r : Route) : Operation :=
  match r with
  | POST_users | POST_tasks => OpCreate
  | GET_users | GET_tasks => OpList
  | GET_users_id | GET_tasks_id => OpGet
  | PUT_users_id | PUT_tasks_id => OpUpdate
  | DELETE_users_id | DELETE_tasks_id => OpDelete
  end.

Definition other (k : Collection) : Collection :=
  match k with Users => Tasks | Tasks => Users end.

Definition List (k : Collection) : Handler :=
  match k with Users => getUsers | Tasks => getTasks end.

(** The document the list handler writes. *)
Definition listing (k : Collection) (w : World) : JValue :=
  match k with
  | Users => marshal_slice marshal_User (users w)
  | Tasks => marshal_slice marshal_Task (tasks w)
  end.

(** The slice of the collection is nil. *)
Definition is_nil (k : Collection) (w : World) : Prop :=
  match k with Users => users w = None | Tasks => tasks w = None end.

Section Dispatch.

Variable decode_User : string → string + UserJSON.
Variable decode_Task : string → string + TaskJSON.
Variable clock : nat → Time.

(** The handler [main] registers for an operation on a collection. *)
Definition operation (k : Collection) (op : Operation) : Handler :=
  match op with
  | OpCreate => Create decode_User decode_Task clock k
  | OpList => List k
  | OpGet => GetByIdentifier k
  | OpUpdate => Update decode_User decode_Task clock k
  | OpDelete => Delete k
  end.

(** Both timestamps of every stored record are clock readings taken
    earlier, the one for [CreatedAt] no later than the one for
    [UpdatedAt]. *)
Definition chronological (w : World) : Prop :=
  Forall (λ u, ∃ i n, (i ≤ n < reads w)%nat ∧
                      User_CreatedAt u = clock i ∧ User_UpdatedAt u = clock n)
         (elems (users w)) ∧
  Forall (λ t, ∃ i n, (i ≤ n < reads w)%nat ∧
                      Task_CreatedAt t = clock i ∧ Task_UpdatedAt t = clock n)
         (elems (tasks w)).

End Dispatch.

(** Every record carries its position plus one as identifier. *)
Definition aligned (k : Collection) (w : World) : Prop :=
  ∀ i r, records k w !! i = Some r → ident k r = Z.of_nat i + 1.

(** The request is not addressed to a delete route. *)
Definition not_a_delete (q : Request) : Prop :=
  operation_of (req_route q) ≠ OpDelete.

(** Two decoded objects agree on the members the handlers keep: all but
    [id], [created_at] and [updated_at]. *)
Definition same_members (k : Collection) : payload k → payload k → Prop :=
  match k with
  | Users => λ a b,
      j_user_name a = j_user_name b ∧ j_user_email a = j_user_email b
  | Tasks => λ a b,
      j_task_user_id a = j_task_user_id b ∧ j_task_title a = j_task_title b ∧
      j_task_description a = j_task_description b ∧
      j_task_status a = j_task_status b
  end.

(** Two requests with the same route, [:id] and body; the headers may
    differ. *)
Definition same_but_headers (q1 q2 : Request) : Prop :=
  req_route q1 = req_route q2 ∧ req_id q1 = req_id q2 ∧ req_body q1 = req_body q2.

(** The request carries a non-empty [Authorization] header. *)
Definition has_token (q : Request) : Prop :=
  ∃ token, req_header q !! "Authorization" = Some token ∧ token ≠ EmptyString.

(** The two states hold the same slice for the collection and have read
    the clock equally often; the slice of the other collection may
    differ. *)
Definition same_collection (k : Collection) (w1 w2 : World) : Prop :=
  match k with
  | Users => users w1 = users w2
  | Tasks => tasks w1 = tasks w2
  end ∧ reads w1 = reads w2.

(** ** A second sample decoder

    Like the first one, and it also knows a body that is Bob's with an
    identifier and timestamps of the sender's choosing. *)

Module Scenario.

Definition decode_User (body : string) : string + UserJSON :=
  if String.eqb body "bob, forged" then
    inr (mkUserJSON (Some 1) (Some "Bob") None (Some 1) (Some 9999))
  else Sample.decode_User body.

End Scenario.

(** * Properties *)

(** ** Integers and [Atoi] *)

Lemma wrap_int_id z : GoInt.in_int z → GoInt.wrap_int z = z.
Proof.
  unfold GoInt.in_int, GoInt.int_min, GoInt.int_max, GoInt.wrap_int.
  intros Hz. rewrite Z.mod_small; lia.
Qed.

Lemma wrap_uint_id z : 0 ≤ z ≤ GoInt.uint_max → GoInt.wrap_uint z = z.
Proof.
  unfold GoInt.uint_max, GoInt.wrap_uint. intros Hz. apply Z.mod_small; lia.
Qed.

Lemma Atoi_in_int s v : strconv.Atoi s = (v, None) → GoInt.in_int v.
Proof.
  unfold strconv.Atoi, GoInt.in_int. destruct s as [|ch0 rest]; [done|].
  cbv zeta.
  destruct (if (ch0 =? "-")%char || (ch0 =? "+")%char then rest
            else String ch0 rest) as [|a b]; [done|].
  destruct (strconv.digits (String a b) 0) as [n|]; [|done].
  destruct (Z.ltb_spec (if (ch0 =? "-")%char then - n else n) GoInt.int_min); [done|].
  destruct (Z.gtb_spec (if (ch0 =? "-")%char then - n else n) GoInt.int_max); [done|].
  intros [= <-]. lia.
Qed.

Lemma digit_is_digit ch d : strconv.digit ch = Some d → is_digit ch = true.
Proof.
  unfold strconv.digit, is_digit.
  pose proof (N_ascii_bounded ch) as Hb.
  set (x := Z.of_N (N_of_ascii ch)).
  assert (0 ≤ x < 256) as Hx by (unfold x; lia). clearbody x.
  destruct (Z.gtb_spec ((x - 48) mod 256) 9) as [|Hle]; [done|].
  intros _. apply andb_true_iff. rewrite !Z.leb_le.
  destruct (Z_lt_dec x 48) as [Hlow|Hhigh].
  - exfalso. replace (x - 48) with (x + 208 + (-1) * 256) in Hle by lia.
    rewrite Z.mod_add in Hle by lia. rewrite Z.mod_small in Hle; lia.
  - rewrite Z.mod_small in Hle; lia.
Qed.

Lemma digits_all_digits s : ∀ n m,
  strconv.digits s n = Some m → all_digits s = true.
Proof.
  induction s as [|ch s IH]; intros n m; [done|].
  cbn [strconv.digits all_digits].
  destruct (strconv.digit ch) as [d|] eqn:Hd; [|done].
  intros Hs. rewrite (digit_is_digit ch d Hd). exact (IH _ _ Hs).
Qed.

(** [Atoi] reports an error for every text that is not numeric. *)
Lemma Atoi_numeric s v : strconv.Atoi s = (v, None) → numeric s = true.
Proof.
  unfold strconv.Atoi, numeric. destruct s as [|ch0 rest]; [done|].
  cbv zeta.
  destruct ((ch0 =? "-")%char || (ch0 =? "+")%char).
  - destruct rest as [|a b]; [done|].
    destruct (strconv.digits (String a b) 0) as [n|] eqn:Hd; [|done].
    intros _. exact (digits_all_digits _ _ _ Hd).
  - destruct (strconv.digits (String ch0 rest) 0) as [n|] eqn:Hd; [|done].
    intros _. exact (digits_all_digits _ _ _ Hd).
Qed.

(** What passing the range check of the [ByID] handlers gives: the
    parameter was a number [id] in [1 .. n], and the [int] and [uint]
    arithmetic on it does not wrap. *)
Lemma guard_false p n id err :
  strconv.Atoi p = (id, err) →
  bool_decide (err ≠ None) || (id <? 1) || (id >? n) = false →
  err = None ∧ 1 ≤ id ≤ n ∧ GoInt.int_sub id 1 = id - 1 ∧ GoInt.uint id = id.
Proof.
  intros HA Hg.
  apply orb_false_iff in Hg as [Hg Hgt]. apply orb_false_iff in Hg as [He Hlt].
  apply bool_decide_eq_false in He.
  assert (err = None) as -> by (destruct err; [exfalso; apply He|]; done).
  apply Atoi_in_int in HA. unfold GoInt.in_int, GoInt.int_min, GoInt.int_max in HA.
  apply Z.ltb_ge in Hlt. rewrite Z.gtb_ltb in Hgt. apply Z.ltb_ge in Hgt.
  repeat split; try lia.
  - unfold GoInt.int_sub. apply wrap_int_id.
    unfold GoInt.in_int, GoInt.int_min, GoInt.int_max. lia.
  - unfold GoInt.uint. apply wrap_uint_id. unfold GoInt.uint_max. lia.
Qed.

Lemma guard_true p n id err :
  strconv.Atoi p = (id, err) →
  bool_decide (err ≠ None) || (id <? 1) || (id >? n) = true ↔
  err ≠ None ∨ id < 1 ∨ id > n.
Proof.
  intros _. rewrite !orb_true_iff, bool_decide_eq_true, Z.ltb_lt, Z.gtb_ltb, Z.ltb_lt.
  intuition lia.
Qed.

(** ** Slices *)

Lemma index_in_range {A} (s : slice A) (i : Z) :
  0 ≤ i < len s → ∃ x, index s i = Some x ∧ elems s !! Z.to_nat i = Some x.
Proof.
  intros Hi. unfold index.
  destruct (Z.leb_spec 0 i); [|lia]. destruct (Z.ltb_spec i (len s)); [|lia].
  simpl. destruct (lookup_lt_is_Some_2 (elems s) (Z.to_nat i)) as [x Hx].
  - unfold len in Hi. lia.
  - exists x. by rewrite Hx.
Qed.

Lemma store_in_range {A} (s : slice A) (i : Z) (x : A) :
  0 ≤ i < len s → store s i x = Some (Some (<[Z.to_nat i := x]> (elems s))).
Proof.
  intros Hi. unfold store.
  destruct (Z.leb_spec 0 i); [|lia]. by destruct (Z.ltb_spec i (len s)); [|lia].
Qed.

Lemma splice_in_range {A} (s : slice A) (id : Z) :
  1 ≤ id ≤ len s →
  splice s (id - 1) id =
    Some (Some (take (Z.to_nat (id - 1)) (elems s) ++ drop (Z.to_nat id) (elems s))).
Proof.
  intros Hi. unfold splice.
  destruct (Z.leb_spec 0 (id - 1)); [|lia].
  destruct (Z.leb_spec (id - 1) (len s)); [|lia].
  destruct (Z.leb_spec 0 id); [|lia].
  destruct (Z.leb_spec id (len s)); [|lia].
  simpl. destruct s as [l|]; [done|]. unfold len in Hi. simpl in Hi. lia.
Qed.

Lemma removed_at_take_drop {A} (k : nat) (l : list A) :
  (k < length l)%nat → removed_at k l (take k l ++ drop (S k) l).
Proof.
  intros Hk. unfold removed_at. split; [done|]. split; [|split].
  - rewrite length_app, length_take, length_drop. lia.
  - intros i Hi. rewrite lookup_app_l by (rewrite length_take; lia).
    by apply lookup_take_lt.
  - intros i Hi. rewrite lookup_app_r by (rewrite length_take; lia).
    rewrite lookup_drop, length_take. f_equal. lia.
Qed.

(** ** What each handler computes *)

Section Handlers.

Variable decode_User : string → string + UserJSON.
Variable decode_Task : string → string + TaskJSON.
Variable clock : nat → Time.

(** Split on the parsed parameter and on the range check. *)
Local Ltac by_guard HA Hg :=
  match goal with
  | |- context [strconv.Atoi ?p] =>
      destruct (strconv.Atoi p) as [id' err'] eqn:HA
  end;
  match goal with
  | |- context [bool_decide (?e ≠ None) || (?i <? 1) || (?i >? ?n)] =>
      destruct (bool_decide (e ≠ None) || (i <? 1) || (i >? n)) eqn:Hg
  end.

Lemma createUser_bad c w e :
  decode_User (Body c) = inl e →
  createUser decode_User clock c w = (JSON StatusBadRequest (H "error" e) c, w).
Proof. intros Hd. unfold createUser, ShouldBindJSON_User. by rewrite Hd. Qed.

Lemma createUser_ok c w j :
  decode_User (Body c) = inr j →
  let u := created_User j (len (users w)) (clock (reads w)) (clock (S (reads w))) in
  createUser decode_User clock c w =
    (JSON StatusCreated (marshal_User u) c,
     mkWorld (append (users w) u) (tasks w) (S (S (reads w)))).
Proof. intros Hd. unfold createUser, ShouldBindJSON_User. by rewrite Hd. Qed.

Lemma getUserByID_notfound c w id err :
  strconv.Atoi (Param "id" c) = (id, err) →
  err ≠ None ∨ id < 1 ∨ id > len (users w) →
  getUserByID c w = (JSON StatusNotFound (H "error" "User not found") c, w).
Proof.
  intros HA Hr. apply (guard_true _ _ _ _ HA) in Hr.
  unfold getUserByID. rewrite HA. by rewrite Hr.
Qed.

Lemma getUserByID_ok c w id :
  strconv.Atoi (Param "id" c) = (id, None) →
  1 ≤ id ≤ len (users w) →
  ∃ u, elems (users w) !! Z.to_nat (id - 1) = Some u ∧
       getUserByID c w = (JSON StatusOK (marshal_User u) c, w).
Proof.
  intros HA Hr. unfold getUserByID. by_guard HA' Hg.
  - apply (guard_true _ _ _ _ HA') in Hg. simplify_eq. destruct Hg as [?|[?|?]]; [done|lia|lia].
  - destruct (guard_false _ _ _ _ HA' Hg) as (-> & _ & -> & _). simplify_eq.
    destruct (index_in_range (users w) (id - 1)) as (u & -> & Hu); [lia|].
    by exists u.
Qed.

Lemma updateUser_notfound c w id err :
  strconv.Atoi (Param "id" c) = (id, err) →
  err ≠ None ∨ id < 1 ∨ id > len (users w) →
  updateUser decode_User clock c w = (JSON StatusNotFound (H "error" "User not found") c, w).
Proof.
  intros HA Hr. apply (guard_true _ _ _ _ HA) in Hr.
  unfold updateUser. rewrite HA. by rewrite Hr.
Qed.

Lemma updateUser_bad c w id e :
  strconv.Atoi (Param "id" c) = (id, None) →
  1 ≤ id ≤ len (users w) →
  decode_User (Body c) = inl e →
  updateUser decode_User clock c w = (JSON StatusBadRequest (H "error" e) c, w).
Proof.
  intros HA Hr Hd. unfold updateUser. by_guard HA' Hg.
  - apply (guard_true _ _ _ _ HA') in Hg. simplify_eq. destruct Hg as [?|[?|?]]; [done|lia|lia].
  - unfold ShouldBindJSON_User. by rewrite Hd.
Qed.

Lemma updateUser_ok c w id j :
  strconv.Atoi (Param "id" c) = (id, None) →
  1 ≤ id ≤ len (users w) →
  decode_User (Body c) = inr j →
  ∃ old, elems (users w) !! Z.to_nat (id - 1) = Some old ∧
    let u := updated_User j id old (clock (reads w)) in
    updateUser decode_User clock c w =
      (JSON StatusOK (marshal_User u) c,
       mkWorld (Some (<[Z.to_nat (id - 1) := u]> (elems (users w))))
               (tasks w) (S (reads w))).
Proof.
  intros HA Hr Hd. unfold updateUser. by_guard HA' Hg.
  - apply (guard_true _ _ _ _ HA') in Hg. simplify_eq. destruct Hg as [?|[?|?]]; [done|lia|lia].
  - destruct (guard_false _ _ _ _ HA' Hg) as (-> & _ & -> & Hu). simplify_eq.
    unfold ShouldBindJSON_User. rewrite Hd.
    destruct (index_in_range (users w) (id - 1)) as (old & -> & Hold); [lia|].
    exists old. split; [done|]. cbv zeta. unfold time_Now. cbn [users].
    by rewrite store_in_range by lia.
Qed.

Lemma deleteUser_notfound c w id err :
  strconv.Atoi (Param "id" c) = (id, err) →
  err ≠ None ∨ id < 1 ∨ id > len (users w) →
  deleteUser c w = (JSON StatusNotFound (H "error" "User not found") c, w).
Proof.
  intros HA Hr. apply (guard_true _ _ _ _ HA) in Hr.
  unfold deleteUser. rewrite HA. by rewrite Hr.
Qed.

Lemma deleteUser_ok c w id :
  strconv.Atoi (Param "id" c) = (id, None) →
  1 ≤ id ≤ len (users w) →
  deleteUser c w =
    (JSON StatusOK (H "message" "User deleted") c,
     mkWorld (Some (take (Z.to_nat (id - 1)) (elems (users w))
                    ++ drop (Z.to_nat id) (elems (users w))))
             (tasks w) (reads w)).
Proof.
  intros HA Hr. unfold deleteUser. by_guard HA' Hg.
  - apply (guard_true _ _ _ _ HA') in Hg. simplify_eq. destruct Hg as [?|[?|?]]; [done|lia|lia].
  - destruct (guard_false _ _ _ _ HA' Hg) as (-> & _ & -> & _). simplify_eq.
    by rewrite splice_in_range by lia.
Qed.

Lemma createTask_bad c w e :
  decode_Task (Body c) = inl e →
  createTask decode_Task clock c w = (JSON StatusBadRequest (H "error" e) c, w).
Proof. intros Hd. unfold createTask, ShouldBindJSON_Task. by rewrite Hd. Qed.

Lemma createTask_ok c w j :
  decode_Task (Body c) = inr j →
  let t := created_Task j (len (tasks w)) (clock (reads w)) (clock (S (reads w))) in
  createTask decode_Task clock c w =
    (JSON StatusCreated (marshal_Task t) c,
     mkWorld (users w) (append (tasks w) t) (S (S (reads w)))).
Proof. intros Hd. unfold createTask, ShouldBindJSON_Task. by rewrite Hd. Qed.

Lemma getTaskByID_notfound c w id err :
  strconv.Atoi (Param "id" c) = (id, err) →
  err ≠ None ∨ id < 1 ∨ id > len (tasks w) →
  getTaskByID c w = (JSON StatusNotFound (H "error" "Task not found") c, w).
Proof.
  intros HA Hr. apply (guard_true _ _ _ _ HA) in Hr.
  unfold getTaskByID. rewrite HA. by rewrite Hr.
Qed.

Lemma getTaskByID_ok c w id :
  strconv.Atoi (Param "id" c) = (id, None) →
  1 ≤ id ≤ len (tasks w) →
  ∃ t, elems (tasks w) !! Z.to_nat (id - 1) = Some t ∧
       getTaskByID c w = (JSON StatusOK (marshal_Task t) c, w).
Proof.
  intros HA Hr. unfold getTaskByID. by_guard HA' Hg.
  - apply (guard_true _ _ _ _ HA') in Hg. simplify_eq. destruct Hg as [?|[?|?]]; [done|lia|lia].
  - destruct (guard_false _ _ _ _ HA' Hg) as (-> & _ & -> & _). simplify_eq.
    destruct (index_in_range (tasks w) (id - 1)) as (t & -> & Ht); [lia|].
    by exists t.
Qed.

Lemma updateTask_notfound c w id err :
  strconv.Atoi (Param "id" c) = (id, err) →
  err ≠ None ∨ id < 1 ∨ id > len (tasks w) →
  updateTask decode_Task clock c w = (JSON StatusNotFound (H "error" "Task not found") c, w).
Proof.
  intros HA Hr. apply (guard_true _ _ _ _ HA) in Hr.
  unfold updateTask. rewrite HA. by rewrite Hr.
Qed.

Lemma updateTask_bad c w id e :
  strconv.Atoi (Param "id" c) = (id, None) →
  1 ≤ id ≤ len (tasks w) →
  decode_Task (Body c) = inl e →
  updateTask decode_Task clock c w = (JSON StatusBadRequest (H "error" e) c, w).
Proof.
  intros HA Hr Hd. unfold updateTask. by_guard HA' Hg.
  - apply (guard_true _ _ _ _ HA') in Hg. simplify_eq. destruct Hg as [?|[?|?]]; [done|lia|lia].
  - unfold ShouldBindJSON_Task. by rewrite Hd.
Qed.

Lemma updateTask_ok c w id j :
  strconv.Atoi (Param "id" c) = (id, None) →
  1 ≤ id ≤ len (tasks w) →
  decode_Task (Body c) = inr j →
  ∃ old, elems (tasks w) !! Z.to_nat (id - 1) = Some old ∧
    let t := updated_Task j id old (clock (reads w)) in
    updateTask decode_Task clock c w =
      (JSON StatusOK (marshal_Task t) c,
       mkWorld (users w)
               (Some (<[Z.to_nat (id - 1) := t]> (elems (tasks w))))
               (S (reads w))).
Proof.
  intros HA Hr Hd. unfold updateTask. by_guard HA' Hg.
  - apply (guard_true _ _ _ _ HA') in Hg. simplify_eq. destruct Hg as [?|[?|?]]; [done|lia|lia].
  - destruct (guard_false _ _ _ _ HA' Hg) as (-> & _ & -> & Hu). simplify_eq.
    unfold ShouldBindJSON_Task. rewrite Hd.
    destruct (index_in_range (tasks w) (id - 1)) as (old & -> & Hold); [lia|].
    exists old. split; [done|]. cbv zeta. unfold time_Now. cbn [tasks].
    by rewrite store_in_range by lia.
Qed.

Lemma deleteTask_notfound c w id err :
  strconv.Atoi (Param "id" c) = (id, err) →
  err ≠ None ∨ id < 1 ∨ id > len (tasks w) →
  deleteTask c w = (JSON StatusNotFound (H "error" "Task not found") c, w).
Proof.
  intros HA Hr. apply (guard_true _ _ _ _ HA) in Hr.
  unfold deleteTask. rewrite HA. by rewrite Hr.
Qed.

Lemma deleteTask_ok c w id :
  strconv.Atoi (Param "id" c) = (id, None) →
  1 ≤ id ≤ len (tasks w) →
  deleteTask c w =
    (JSON StatusOK (H "message" "Task deleted") c,
     mkWorld (users w)
             (Some (take (Z.to_nat (id - 1)) (elems (tasks w))
                    ++ drop (Z.to_nat id) (elems (tasks w))))
             (reads w)).
Proof.
  intros HA Hr. unfold deleteTask. by_guard HA' Hg.
  - apply (guard_true _ _ _ _ HA') in Hg. simplify_eq. destruct Hg as [?|[?|?]]; [done|lia|lia].
  - destruct (guard_false _ _ _ _ HA' Hg) as (-> & _ & -> & _). simplify_eq.
    by rewrite splice_in_range by lia.
Qed.

End Handlers.

(** ** One request, one effect *)

Lemma range_cases (id : Z) (err : option strconv.NumError) (n : Z) :
  (err ≠ None ∨ id < 1 ∨ id > n) ∨ (err = None ∧ 1 ≤ id ≤ n).
Proof.
  destruct err as [e|]; [by left; left|].
  destruct (Z_lt_dec id 1); [left; right; left; lia|].
  destruct (Z_gt_dec id n); [left; right; right; lia|].
  right. split; [done|lia].
Qed.

Section Reach.

Variable decode_User : string → string + UserJSON.
Variable decode_Task : string → string + TaskJSON.
Variable clock : nat → Time.

Lemma createUser_effect c w : effect clock w (createUser decode_User clock c w).2.
Proof.
  destruct (decode_User (Body c)) as [e|j] eqn:Hd.
  - rewrite (createUser_bad _ _ _ _ _ Hd). constructor.
  - rewrite (createUser_ok _ _ _ _ _ Hd). constructor.
Qed.

Lemma getUserByID_unchanged c w : (getUserByID c w).2 = w.
Proof.
  destruct (strconv.Atoi (Param "id" c)) as [id err] eqn:HA.
  destruct (range_cases id err (len (users w))) as [Hr|[-> Hr]].
  - by rewrite (getUserByID_notfound _ _ _ _ HA Hr).
  - by destruct (getUserByID_ok _ _ _ HA Hr) as (u & _ & ->).
Qed.

Lemma updateUser_effect c w : effect clock w (updateUser decode_User clock c w).2.
Proof.
  destruct (strconv.Atoi (Param "id" c)) as [id err] eqn:HA.
  destruct (range_cases id err (len (users w))) as [Hr|[-> Hr]].
  - rewrite (updateUser_notfound _ _ _ _ _ _ HA Hr). constructor.
  - destruct (decode_User (Body c)) as [e|j] eqn:Hd.
    + rewrite (updateUser_bad _ _ _ _ _ _ HA Hr Hd). constructor.
    + destruct (updateUser_ok _ clock _ _ _ _ HA Hr Hd) as (old & Hold & ->).
      by apply effect_updateUser.
Qed.

Lemma deleteUser_effect c w : effect clock w (deleteUser c w).2.
Proof.
  destruct (strconv.Atoi (Param "id" c)) as [id err] eqn:HA.
  destruct (range_cases id err (len (users w))) as [Hr|[-> Hr]].
  - rewrite (deleteUser_notfound _ _ _ _ HA Hr). constructor.
  - rewrite (deleteUser_ok _ _ _ HA Hr). by apply effect_deleteUser.
Qed.

Lemma createTask_effect c w : effect clock w (createTask decode_Task clock c w).2.
Proof.
  destruct (decode_Task (Body c)) as [e|j] eqn:Hd.
  - rewrite (createTask_bad _ _ _ _ _ Hd). constructor.
  - rewrite (createTask_ok _ _ _ _ _ Hd). constructor.
Qed.

Lemma getTaskByID_unchanged c w : (getTaskByID c w).2 = w.
Proof.
  destruct (strconv.Atoi (Param "id" c)) as [id err] eqn:HA.
  destruct (range_cases id err (len (tasks w))) as [Hr|[-> Hr]].
  - by rewrite (getTaskByID_notfound _ _ _ _ HA Hr).
  - by destruct (getTaskByID_ok _ _ _ HA Hr) as (t & _ & ->).
Qed.

Lemma updateTask_effect c w : effect clock w (updateTask decode_Task clock c w).2.
Proof.
  destruct (strconv.Atoi (Param "id" c)) as [id err] eqn:HA.
  destruct (range_cases id err (len (tasks w))) as [Hr|[-> Hr]].
  - rewrite (updateTask_notfound _ _ _ _ _ _ HA Hr). constructor.
  - destruct (decode_Task (Body c)) as [e|j] eqn:Hd.
    + rewrite (updateTask_bad _ _ _ _ _ _ HA Hr Hd). constructor.
    + destruct (updateTask_ok _ clock _ _ _ _ HA Hr Hd) as (old & Hold & ->).
      by apply effect_updateTask.
Qed.

Lemma deleteTask_effect c w : effect clock w (deleteTask c w).2.
Proof.
  destruct (strconv.Atoi (Param "id" c)) as [id err] eqn:HA.
  destruct (range_cases id err (len (tasks w))) as [Hr|[-> Hr]].
  - rewrite (deleteTask_notfound _ _ _ _ HA Hr). constructor.
  - rewrite (deleteTask_ok _ _ _ HA Hr). by apply effect_deleteTask.
Qed.

(** The gate either answers by itself, leaving the state alone, or runs
    the handler on the context with the identity attached. *)
Lemma authMiddleware_cases next c w :
  (GetHeader "Authorization" c = EmptyString ∧
   authMiddleware next c w =
     (Abort (JSON StatusUnauthorized (H "error" "Unauthorized: Missing token") c), w))
  ∨ (GetHeader "Authorization" c ≠ EmptyString ∧
     authMiddleware next c w =
       next (Set_ "userInfo" (getUserInfoFromToken (GetHeader "Authorization" c)).1 c) w).
Proof.
  unfold authMiddleware.
  destruct (String.eqb_spec (GetHeader "Authorization" c) EmptyString) as [He|He].
  - by left.
  - by right.
Qed.

Lemma authMiddleware_effect next c w :
  (∀ c' w', effect clock w' (next c' w').2) →
  effect clock w (authMiddleware next c w).2.
Proof.
  intros Hnext. destruct (authMiddleware_cases next c w) as [[_ ->]|[_ ->]].
  - constructor.
  - apply Hnext.
Qed.

Lemma serve_effect q w :
  effect clock w (serve decode_User decode_Task clock q w).2.
Proof.
  unfold serve. destruct (req_route q); cbn [route];
    try apply authMiddleware_effect; intros;
    first [ apply createUser_effect | apply updateUser_effect
          | apply deleteUser_effect | apply createTask_effect
          | apply updateTask_effect | apply deleteTask_effect
          | rewrite getUserByID_unchanged; constructor
          | rewrite getTaskByID_unchanged; constructor
          | constructor ].
Qed.

(** Induction over the reachable states, one effect at a time. *)
Lemma reachable_effect_ind (P : World → Prop) :
  P init →
  (∀ w w', effect clock w w' → P w → P w') →
  ∀ w, reachable decode_User decode_Task clock w → P w.
Proof.
  intros Hinit Hstep w Hw. induction Hw as [|q w Hw IH]; [done|].
  eapply Hstep; [apply serve_effect|done].
Qed.

Lemma run_reachable qs w :
  reachable decode_User decode_Task clock w →
  reachable decode_User decode_Task clock (run decode_User decode_Task clock qs w).
Proof.
  revert w. induction qs as [|q qs IH]; intros w Hw; [done|].
  cbn [run]. apply IH. by constructor.
Qed.

(** *** Invariants of the reachable states *)

Lemma effect_stamped w w' : effect clock w w' → stamped clock w → stamped clock w'.
Proof.
  intros He [Hu Ht]. unfold stamped.
  assert (∀ n m (l : list User), (n ≤ m)%nat →
    Forall (λ u, ∃ k, (k < n)%nat ∧ User_UpdatedAt u = clock k) l →
    Forall (λ u, ∃ k, (k < m)%nat ∧ User_UpdatedAt u = clock k) l) as HwU.
  { intros n m l Hnm HF. eapply Forall_impl; [exact HF|].
    intros u (k & Hk & Hu'). exists k. split; [lia|done]. }
  assert (∀ n m (l : list Task), (n ≤ m)%nat →
    Forall (λ t, ∃ k, (k < n)%nat ∧ Task_UpdatedAt t = clock k) l →
    Forall (λ t, ∃ k, (k < m)%nat ∧ Task_UpdatedAt t = clock k) l) as HwT.
  { intros n m l Hnm HF. eapply Forall_impl; [exact HF|].
    intros t (k & Hk & Ht'). exists k. split; [lia|done]. }
  destruct He; simpl.
  - done.
  - split; [|by apply (HwT (reads w)); [lia|]].
    apply Forall_app. split; [by apply (HwU (reads w)); [lia|]|].
    apply Forall_singleton. exists (S (reads w)). split; [lia|done].
  - split; [|by apply (HwT (reads w)); [lia|]].
    apply Forall_insert; [by apply (HwU (reads w)); [lia|]|].
    exists (reads w). split; [lia|done].
  - split; [|done]. apply Forall_app. split.
    + by apply Forall_take.
    + by apply Forall_drop.
  - split; [by apply (HwU (reads w)); [lia|]|].
    apply Forall_app. split; [by apply (HwT (reads w)); [lia|]|].
    apply Forall_singleton. exists (S (reads w)). split; [lia|done].
  - split; [by apply (HwU (reads w)); [lia|]|].
    apply Forall_insert; [by apply (HwT (reads w)); [lia|]|].
    exists (reads w). split; [lia|done].
  - split; [done|]. apply Forall_app. split.
    + by apply Forall_take.
    + by apply Forall_drop.
Qed.

Lemma reachable_stamped w :
  reachable decode_User decode_Task clock w → stamped clock w.
Proof.
  apply reachable_effect_ind.
  - split; constructor.
  - apply effect_stamped.
Qed.

Lemma effect_Password_empty w w' :
  effect clock w w' → Password_empty w → Password_empty w'.
Proof.
  unfold Password_empty.
  intros He Hp. destruct He; simpl; try done.
  - apply Forall_app. split; [done|]. by apply Forall_singleton.
  - by apply Forall_insert.
  - apply Forall_app. split; [by apply Forall_take|by apply Forall_drop].
Qed.

Lemma reachable_Password_empty w :
  reachable decode_User decode_Task clock w → Password_empty w.
Proof.
  apply reachable_effect_ind.
  - constructor.
  - apply effect_Password_empty.
Qed.

End Reach.

(** ** Lookup by identifier *)

Lemma GetByIdentifier_notfound k c w id err :
  strconv.Atoi (Param "id" c) = (id, err) →
  err ≠ None ∨ id < 1 ∨ id > count k w →
  GetByIdentifier k c w =
    (JSON StatusNotFound (H "error" (noun k +:+ " not found")) c, w).
Proof.
  destruct k; intros HA Hr.
  - exact (getUserByID_notfound _ _ _ _ HA Hr).
  - exact (getTaskByID_notfound _ _ _ _ HA Hr).
Qed.

Lemma GetByIdentifier_ok k c w id :
  strconv.Atoi (Param "id" c) = (id, None) →
  1 ≤ id ≤ count k w →
  ∃ r, records k w !! Z.to_nat (id - 1) = Some r ∧
       GetByIdentifier k c w = (JSON StatusOK (render k r) c, w).
Proof.
  destruct k; intros HA Hr.
  - exact (getUserByID_ok _ _ _ HA Hr).
  - exact (getTaskByID_ok _ _ _ HA Hr).
Qed.

(** C3. On either collection and in every state, the lookup by identifier
    answers 404 NotFound exactly when the path parameter is rejected by
    [Atoi] (as every non-numeric text is) or the number is below 1 or above
    the current length; in every other case it answers 200 with the record
    stored at position [id - 1].  The state is never changed. *)
Theorem GetByIdentifier_spec k c w id err :
  strconv.Atoi (Param "id" c) = (id, err) →
  (GetByIdentifier k c w).2 = w ∧
  (status_of (GetByIdentifier k c w).1 = StatusNotFound
     ↔ err ≠ None ∨ id < 1 ∨ id > count k w) ∧
  (numeric (Param "id" c) = false ∨ err ≠ None ∨ id < 1 ∨ id > count k w →
   (GetByIdentifier k c w).1 =
     JSON StatusNotFound (H "error" (noun k +:+ " not found")) c) ∧
  (err = None ∧ 1 ≤ id ≤ count k w →
   ∃ r, records k w !! Z.to_nat (id - 1) = Some r ∧
        (GetByIdentifier k c w).1 = JSON StatusOK (render k r) c).
Proof.
  intros HA.
  assert (numeric (Param "id" c) = false → err ≠ None) as Hnum.
  { intros Hn ->. apply Atoi_numeric in HA. congruence. }
  destruct (range_cases id err (count k w)) as [Hr|[-> Hr]].
  - rewrite (GetByIdentifier_notfound _ _ _ _ _ HA Hr). cbn.
    repeat split; try done.
    intros [-> Hin]. destruct Hr as [?|[?|?]]; [done|lia|lia].
  - destruct (GetByIdentifier_ok _ _ _ _ HA Hr) as (r & Hr' & ->). cbn.
    repeat split.
    + intros [=].
    + intros [?|[?|?]]; [done|lia|lia].
    + intros [Hn|[?|[?|?]]]; [by apply Hnum in Hn|done|lia|lia].
    + intros _. by exists r.
Qed.

Lemma GetByIdentifier_spec_witness :
  strconv.Atoi (Param "id" (Sample.by_id "2")) = (2, None) ∧
  (GetByIdentifier Users (Sample.by_id "2") Sample.populated).2 = Sample.populated ∧
  (status_of (GetByIdentifier Users (Sample.by_id "2") Sample.populated).1
     = StatusNotFound
   ↔ @None strconv.NumError ≠ None ∨ 2 < 1 ∨ 2 > count Users Sample.populated).
Proof.
  split; [reflexivity|].
  pose proof (GetByIdentifier_spec Users (Sample.by_id "2") Sample.populated
                2 None eq_refl) as (Hw & Hs & _).
  exact (conj Hw Hs).
Defined.

(** ** Deletion *)

(** C2. On either collection, for every state and every [id] from 1 to the
    current length, the delete handler answers 200 and removes exactly the
    element at position [id - 1]: the elements before it stay where they
    are, every later element moves one position to the front, and the
    length drops by one.  The record that the lookup returned for
    [id + 1] before is the one it returns for [id] afterwards.  The other
    collection is left alone. *)
Theorem Delete_compacts k c w id :
  strconv.Atoi (Param "id" c) = (id, None) →
  1 ≤ id ≤ count k w →
  (Delete k c w).1 = JSON StatusOK (H "message" (noun k +:+ " deleted")) c ∧
  removed_at (Z.to_nat (id - 1)) (records k w) (records k (Delete k c w).2) ∧
  count k (Delete k c w).2 = count k w - 1 ∧
  untouched k w (Delete k c w).2 ∧
  (∀ c1 c2,
     strconv.Atoi (Param "id" c1) = (id + 1, None) →
     strconv.Atoi (Param "id" c2) = (id, None) →
     id + 1 ≤ count k w →
     ∃ r, records k w !! Z.to_nat id = Some r ∧
          (GetByIdentifier k c1 w).1 = JSON StatusOK (render k r) c1 ∧
          (GetByIdentifier k c2 (Delete k c w).2).1 = JSON StatusOK (render k r) c2).
Proof.
  intros HA Hr.
  assert (∃ w', Delete k c w =
                  (JSON StatusOK (H "message" (noun k +:+ " deleted")) c, w') ∧
                records k w' = take (Z.to_nat (id - 1)) (records k w)
                               ++ drop (S (Z.to_nat (id - 1))) (records k w) ∧
                untouched k w w') as (w' & -> & Hw' & Hun).
  { replace (S (Z.to_nat (id - 1))) with (Z.to_nat id) by lia.
    destruct k; cbn [Delete noun records untouched count] in *.
    - rewrite (deleteUser_ok _ _ _ HA Hr). by eexists.
    - rewrite (deleteTask_ok _ _ _ HA Hr). by eexists. }
  assert (Z.of_nat (length (records k w)) = count k w) as Hlen by (by destruct k).
  assert (Z.of_nat (length (records k w')) = count k w') as Hlen' by (by destruct k).
  assert (removed_at (Z.to_nat (id - 1)) (records k w) (records k w')) as Hrem.
  { rewrite Hw'. apply removed_at_take_drop. lia. }
  cbn [fst snd]. split; [done|]. split; [done|].
  destruct Hrem as (_ & Hl & _ & Hshift).
  split; [lia|]. split; [done|].
  intros c1 c2 H1 H2 Hnext.
  destruct (GetByIdentifier_ok k c1 w (id + 1) H1) as (r & Hr1 & ->); [lia|].
  destruct (GetByIdentifier_ok k c2 w' id H2) as (r' & Hr2 & ->); [lia|].
  replace (Z.to_nat (id + 1 - 1)) with (Z.to_nat id) in Hr1 by lia.
  rewrite Hshift in Hr2 by lia.
  replace (S (Z.to_nat (id - 1))) with (Z.to_nat id) in Hr2 by lia.
  exists r. cbn [fst]. split; [done|]. split; [done|]. congruence.
Qed.

Lemma Delete_compacts_witness :
  (strconv.Atoi (Param "id" (Sample.by_id "1")) = (1, None) ∧
   1 ≤ 1 ≤ count Users Sample.populated) ∧
  removed_at (Z.to_nat (1 - 1)) (records Users Sample.populated)
    (records Users (Delete Users (Sample.by_id "1") Sample.populated).2) ∧
  count Users (Delete Users (Sample.by_id "1") Sample.populated).2
    = count Users Sample.populated - 1.
Proof.
  assert (1 ≤ 1 ≤ count Users Sample.populated) as Hr by (vm_compute; split; discriminate).
  split; [split; [reflexivity|exact Hr]|].
  pose proof (Delete_compacts Users (Sample.by_id "1") Sample.populated 1 eq_refl Hr)
    as (_ & Hrem & Hcount & _).
  exact (conj Hrem Hcount).
Defined.

(** ** Creation *)

Lemma records_length k w : Z.of_nat (length (records k w)) = count k w.
Proof. by destruct k. Qed.

Lemma count_nonneg k w : 0 ≤ count k w.
Proof. rewrite <- records_length. lia. Qed.

Lemma ident_created k j n now1 now2 :
  0 ≤ n < GoInt.int_max → ident k (created k j n now1 now2) = n + 1.
Proof.
  intros Hn.
  assert (GoInt.uint (GoInt.int_add n 1) = n + 1) as Hid.
  { unfold GoInt.uint, GoInt.int_add.
    unfold GoInt.int_max in Hn.
    rewrite wrap_int_id by (unfold GoInt.in_int, GoInt.int_min, GoInt.int_max; lia).
    apply wrap_uint_id. unfold GoInt.uint_max. lia. }
  destruct k; exact Hid.
Qed.

Lemma same_content_created k j n now1 now2 :
  same_content k (created k j n now1 now2) (bound k j).
Proof. destruct k; cbn; done. Qed.

Lemma Create_ok dU dT clock k c w j :
  decode dU dT k (Body c) = inr j →
  Create dU dT clock k c w =
    (JSON StatusCreated
       (render k (created k j (count k w) (clock (reads w)) (clock (S (reads w))))) c,
     (Create dU dT clock k c w).2) ∧
  records k (Create dU dT clock k c w).2 =
    records k w ++ [created k j (count k w) (clock (reads w)) (clock (S (reads w)))] ∧
  untouched k w (Create dU dT clock k c w).2 ∧
  reads (Create dU dT clock k c w).2 = S (S (reads w)).
Proof.
  intros Hd. destruct k; cbn [Create decode] in *.
  - by rewrite (createUser_ok _ _ _ _ _ Hd).
  - by rewrite (createTask_ok _ _ _ _ _ Hd).
Qed.

(** A create request that gets through runs the create handler of its
    collection. *)
Lemma serve_creates dU dT clock k q w :
  creates dU dT k q →
  ∃ c j, decode dU dT k (Body c) = inr j ∧
         serve dU dT clock q w = Create dU dT clock k c w.
Proof.
  intros (Hroute & [j Hj] & Htok). unfold serve. rewrite Hroute.
  destruct k; cbn [create_route route Create].
  - by exists (new_context q), j.
  - destruct (Htok eq_refl) as (token & Hh & Hne).
    destruct (authMiddleware_cases (createTask dT clock) (new_context q) w)
      as [[He _]|[_ ->]].
    + unfold GetHeader, new_context in He. cbn in He. rewrite Hh in He. done.
    + exists (Set_ "userInfo"
                (getUserInfoFromToken (GetHeader "Authorization" (new_context q))).1
                (new_context q)), j.
      split; [exact Hj|reflexivity].
Qed.

Lemma run_creates dU dT clock k qs : ∀ w,
  Forall (creates dU dT k) qs →
  count k w + Z.of_nat (length qs) ≤ GoInt.int_max →
  map (ident k) (records k (run dU dT clock qs w)) =
    map (ident k) (records k w) ++ seqZ (count k w + 1) (Z.of_nat (length qs)).
Proof.
  induction qs as [|q qs IH]; intros w Hqs Hlen.
  - cbn. by rewrite app_nil_r.
  - apply Forall_cons in Hqs as [Hq Hqs]. cbn [run length] in *.
    destruct (serve_creates dU dT clock k q w Hq) as (c & j & Hd & ->).
    destruct (Create_ok dU dT clock k c w j Hd) as (_ & Hrec & _ & _).
    pose proof (count_nonneg k w) as H0.
    assert (count k (Create dU dT clock k c w).2 = count k w + 1) as Hc.
    { rewrite <- !records_length, Hrec, length_app. cbn. lia. }
    rewrite IH by (done || lia).
    rewrite Hrec, map_app, Hc. cbn [map].
    rewrite ident_created by lia.
    rewrite <- app_assoc. f_equal. cbn [app].
    rewrite (seqZ_cons (count k w + 1)) by lia.
    f_equal. f_equal; lia.
Qed.

(** C4, refuted as stated.  [createUser] reads the clock twice, once for
    [CreatedAt] and once more for [UpdatedAt]; as soon as the clock has
    advanced between the two readings the stored timestamps differ. *)
Lemma Create_timestamps_differ :
  records Users
    (Create Sample.decode_User Sample.decode_Task Sample.clock Users
       (Sample.body_only "alice") init).2
  = [mkUser 1 "Alice" "a@x.com" EmptyString 1000 1001] ∧
  User_CreatedAt (mkUser 1 "Alice" "a@x.com" EmptyString 1000 1001)
  ≠ User_UpdatedAt (mkUser 1 "Alice" "a@x.com" EmptyString 1000 1001).
Proof. split; [reflexivity|discriminate]. Qed.

(** C4, amended.  On either collection and in every state, a create
    request whose body decodes is answered 201 with the stored record; the
    record is the decoded payload with the identifier set to the current
    length plus one, [CreatedAt] set to one clock reading and [UpdatedAt]
    to the next one, and it is appended at the end of the sequence.
    Serving N such requests from the initial state leaves the identifiers
    1, 2, ..., N in the collection, in this order. *)
Theorem Create_appends dU dT clock k c w j qs :
  decode dU dT k (Body c) = inr j →
  count k w < GoInt.int_max →
  Forall (creates dU dT k) qs →
  Z.of_nat (length qs) ≤ GoInt.int_max →
  (∃ r,
     Create dU dT clock k c w =
       (JSON StatusCreated (render k r) c, (Create dU dT clock k c w).2) ∧
     records k (Create dU dT clock k c w).2 = records k w ++ [r] ∧
     ident k r = count k w + 1 ∧
     created_at k r = clock (reads w) ∧
     updated_at k r = clock (S (reads w)) ∧
     same_content k r (bound k j) ∧
     untouched k w (Create dU dT clock k c w).2) ∧
  map (ident k) (records k (run dU dT clock qs init))
    = seqZ 1 (Z.of_nat (length qs)).
Proof.
  intros Hd Hlt Hqs Hn. split.
  - destruct (Create_ok dU dT clock k c w j Hd) as (Hc & Hrec & Hun & _).
    eexists. split; [exact Hc|]. split; [exact Hrec|].
    split; [apply ident_created; pose proof (count_nonneg k w); lia|].
    split; [by destruct k|]. split; [by destruct k|].
    split; [apply same_content_created|done].
  - rewrite (run_creates dU dT clock k qs init Hqs).
    + by destruct k.
    + assert (count k init = 0) as -> by (by destruct k). lia.
Qed.

Lemma Sample_creates_task body j :
  Sample.decode_Task body = inr j →
  creates Sample.decode_User Sample.decode_Task Tasks
    (Sample.post_task body).
Proof.
  intros Hj. split; [reflexivity|]. split; [by exists j|].
  intros _. exists "token". split; [reflexivity|discriminate].
Qed.

Lemma Create_appends_witness :
  (decode Sample.decode_User Sample.decode_Task Tasks
     (Body (Sample.body_only "laundry"))
   = inr (mkTaskJSON None (Some 1) (Some "Laundry") (Some "whites") (Some "open")
            None None) ∧
   count Tasks Sample.populated < GoInt.int_max ∧
   Forall (creates Sample.decode_User Sample.decode_Task Tasks)
     [Sample.post_task "laundry";
      Sample.post_task "dishes";
      Sample.post_task "empty"] ∧
   Z.of_nat 3 ≤ GoInt.int_max) ∧
  map (ident Tasks)
    (records Tasks
       (run Sample.decode_User Sample.decode_Task Sample.clock
          [Sample.post_task "laundry";
           Sample.post_task "dishes";
           Sample.post_task "empty"] init))
  = seqZ 1 (Z.of_nat 3).
Proof.
  assert (count Tasks Sample.populated < GoInt.int_max) as Hlt by reflexivity.
  assert (Z.of_nat 3 ≤ GoInt.int_max) as Hn by (vm_compute; discriminate).
  assert (Forall (creates Sample.decode_User Sample.decode_Task Tasks)
            [Sample.post_task "laundry";
             Sample.post_task "dishes";
             Sample.post_task "empty"]) as Hqs.
  { repeat first [ apply Forall_nil_2
                   | apply Forall_cons_2;
                     [eapply Sample_creates_task; reflexivity|] ]. }
  split; [exact (conj eq_refl (conj Hlt (conj Hqs Hn)))|].
  exact (proj2 (Create_appends Sample.decode_User Sample.decode_Task Sample.clock
                  Tasks (Sample.body_only "laundry") Sample.populated _ _
                  eq_refl Hlt Hqs Hn)).
Defined.

(** ** Update *)

Lemma Update_notfound dU dT clock k c w id err :
  strconv.Atoi (Param "id" c) = (id, err) →
  err ≠ None ∨ id < 1 ∨ id > count k w →
  Update dU dT clock k c w =
    (JSON StatusNotFound (H "error" (noun k +:+ " not found")) c, w).
Proof.
  destruct k; intros HA Hr.
  - exact (updateUser_notfound _ _ _ _ _ _ HA Hr).
  - exact (updateTask_notfound _ _ _ _ _ _ HA Hr).
Qed.

Lemma Update_bad dU dT clock k c w id e :
  strconv.Atoi (Param "id" c) = (id, None) →
  1 ≤ id ≤ count k w →
  decode dU dT k (Body c) = inl e →
  Update dU dT clock k c w = (JSON StatusBadRequest (H "error" e) c, w).
Proof.
  destruct k; intros HA Hr Hd.
  - exact (updateUser_bad _ _ _ _ _ _ HA Hr Hd).
  - exact (updateTask_bad _ _ _ _ _ _ HA Hr Hd).
Qed.

Lemma Update_ok dU dT clock k c w id j :
  strconv.Atoi (Param "id" c) = (id, None) →
  1 ≤ id ≤ count k w →
  decode dU dT k (Body c) = inr j →
  ∃ old, records k w !! Z.to_nat (id - 1) = Some old ∧
    Update dU dT clock k c w =
      (JSON StatusOK (render k (updated k j id old (clock (reads w)))) c,
       (Update dU dT clock k c w).2) ∧
    records k (Update dU dT clock k c w).2 =
      <[Z.to_nat (id - 1) := updated k j id old (clock (reads w))]> (records k w) ∧
    untouched k w (Update dU dT clock k c w).2.
Proof.
  destruct k; intros HA Hr Hd; cbn [Update decode records count] in *.
  - destruct (updateUser_ok _ clock _ _ _ _ HA Hr Hd) as (old & Hold & ->).
    by exists old.
  - destruct (updateTask_ok _ clock _ _ _ _ HA Hr Hd) as (old & Hold & ->).
    by exists old.
Qed.

Lemma stamped_updated_at clock k w (r : record k) :
  stamped clock w → r ∈ records k w →
  ∃ i, (i < reads w)%nat ∧ updated_at k r = clock i.
Proof.
  intros [Hu Ht] Hin. destruct k; cbn [records updated_at] in *.
  - by apply (proj1 (Forall_forall _ _) Hu).
  - by apply (proj1 (Forall_forall _ _) Ht).
Qed.

(** C5. On either collection, in every state the process can reach and
    for every [id] from 1 to the current length, an update request whose
    body decodes is answered 200 and replaces the record at position
    [id - 1] by the decoded payload bound to a zero-valued struct (so a
    field absent from the payload holds its zero value, whatever the old
    record held), with the identifier forced to [id], [CreatedAt] taken
    from the old record and [UpdatedAt] set to the clock reading taken
    during the update.  With a clock that never runs backwards the new
    [UpdatedAt] is not earlier than the old one. *)
Theorem Update_overwrites dU dT clock k c w id j :
  monotone clock →
  reachable dU dT clock w →
  strconv.Atoi (Param "id" c) = (id, None) →
  1 ≤ id ≤ count k w →
  decode dU dT k (Body c) = inr j →
  ∃ old r,
    records k w !! Z.to_nat (id - 1) = Some old ∧
    Update dU dT clock k c w =
      (JSON StatusOK (render k r) c, (Update dU dT clock k c w).2) ∧
    records k (Update dU dT clock k c w).2 =
      <[Z.to_nat (id - 1) := r]> (records k w) ∧
    same_content k r (bound k j) ∧
    ident k r = id ∧
    created_at k r = created_at k old ∧
    updated_at k r = clock (reads w) ∧
    updated_at k old ≤ updated_at k r ∧
    untouched k w (Update dU dT clock k c w).2.
Proof.
  intros Hmono Hreach HA Hr Hd.
  destruct (Update_ok dU dT clock k c w id j HA Hr Hd) as (old & Hold & Hres & Hrec & Hun).
  exists old, (updated k j id old (clock (reads w))).
  split; [done|]. split; [done|]. split; [done|].
  split; [by destruct k|].
  split.
  { assert (GoInt.uint id = id) as Hid.
    { apply Atoi_in_int in HA.
      unfold GoInt.in_int, GoInt.int_min, GoInt.int_max in HA.
      unfold GoInt.uint. apply wrap_uint_id. unfold GoInt.uint_max. lia. }
    destruct k; exact Hid. }
  split; [by destruct k|].
  assert (updated_at k (updated k j id old (clock (reads w))) = clock (reads w))
    as Hup by (by destruct k).
  split; [done|]. split; [|done].
  rewrite Hup.
  destruct (stamped_updated_at clock k w old) as (i & Hi & ->).
  - by eapply reachable_stamped.
  - eapply list_elem_of_lookup_2, Hold.
  - apply Hmono. lia.
Qed.

Lemma Sample_clock_monotone : monotone Sample.clock.
Proof. intros i k Hik. unfold Sample.clock. lia. Qed.

Lemma Sample_populated_reachable :
  reachable Sample.decode_User Sample.decode_Task Sample.clock Sample.populated.
Proof. apply run_reachable. constructor. Qed.

Lemma Update_overwrites_witness :
  (monotone Sample.clock ∧
   reachable Sample.decode_User Sample.decode_Task Sample.clock Sample.populated ∧
   strconv.Atoi (Param "id" (Sample.with_body "2" "empty")) = (2, None) ∧
   1 ≤ 2 ≤ count Users Sample.populated ∧
   decode Sample.decode_User Sample.decode_Task Users
     (Body (Sample.with_body "2" "empty"))
   = inr (mkUserJSON None None None None None)) ∧
  ∃ old r,
    records Users Sample.populated !! Z.to_nat (2 - 1) = Some old ∧
    records Users
      (Update Sample.decode_User Sample.decode_Task Sample.clock Users
         (Sample.with_body "2" "empty") Sample.populated).2
    = <[Z.to_nat (2 - 1) := r]> (records Users Sample.populated) ∧
    same_content Users r (bound Users (mkUserJSON None None None None None)) ∧
    created_at Users r = created_at Users old ∧
    updated_at Users old ≤ updated_at Users r.
Proof.
  assert (1 ≤ 2 ≤ count Users Sample.populated) as Hr
    by (vm_compute; split; discriminate).
  split.
  - exact (conj Sample_clock_monotone
             (conj Sample_populated_reachable (conj eq_refl (conj Hr eq_refl)))).
  - destruct (Update_overwrites Sample.decode_User Sample.decode_Task Sample.clock
                Users (Sample.with_body "2" "empty") Sample.populated 2
                (mkUserJSON None None None None None)
                Sample_clock_monotone Sample_populated_reachable eq_refl Hr eq_refl)
      as (old & r & H1 & _ & H3 & H4 & _ & H6 & _ & H8 & _).
    exists old, r. exact (conj H1 (conj H3 (conj H4 (conj H6 H8)))).
Defined.

(** ** The access gate *)

Lemma route_task dU dT clock r h :
  task_handler dT clock r = Some h → route dU dT clock r = authMiddleware h.
Proof. destruct r; intros [= <-]; reflexivity. Qed.

(** The task handlers answer 200, 201, 400 or 404 and nothing else. *)
Lemma task_handler_status dT clock r h c w :
  task_handler dT clock r = Some h →
  status_of (h c w).1 = StatusOK ∨ status_of (h c w).1 = StatusCreated ∨
  status_of (h c w).1 = StatusBadRequest ∨ status_of (h c w).1 = StatusNotFound.
Proof.
  intros Hh. destruct r; simplify_eq/=.
  - destruct (dT (Body c)) as [e|j] eqn:Hd.
    + rewrite (createTask_bad _ _ _ _ _ Hd). auto.
    + rewrite (createTask_ok _ _ _ _ _ Hd). auto.
  - auto.
  - destruct (strconv.Atoi (Param "id" c)) as [id err] eqn:HA.
    destruct (range_cases id err (len (tasks w))) as [Hr|[-> Hr]].
    + rewrite (getTaskByID_notfound _ _ _ _ HA Hr). auto.
    + destruct (getTaskByID_ok _ _ _ HA Hr) as (t & _ & ->). auto.
  - destruct (strconv.Atoi (Param "id" c)) as [id err] eqn:HA.
    destruct (range_cases id err (len (tasks w))) as [Hr|[-> Hr]].
    + rewrite (updateTask_notfound _ _ _ _ _ _ HA Hr). auto.
    + destruct (dT (Body c)) as [e|j] eqn:Hd.
      * rewrite (updateTask_bad _ _ _ _ _ _ HA Hr Hd). auto.
      * destruct (updateTask_ok _ clock _ _ _ _ HA Hr Hd) as (old & _ & ->). auto.
  - destruct (strconv.Atoi (Param "id" c)) as [id err] eqn:HA.
    destruct (range_cases id err (len (tasks w))) as [Hr|[-> Hr]].
    + rewrite (deleteTask_notfound _ _ _ _ HA Hr). auto.
    + rewrite (deleteTask_ok _ _ _ HA Hr). auto.
Qed.

(** C6. On every task route, a request with a non-empty [Authorization]
    header never takes the validation-error branch of the gate:
    [getUserInfoFromToken] returns the fixed identity (ID 1, John Doe) and a
    nil error for every token, so the gate stores that identity under the
    key [userInfo] and runs the handler of the route on the resulting
    context; the answer is the handler's and is never 401. *)
Theorem gate_admits dU dT clock r h c w :
  task_handler dT clock r = Some h →
  GetHeader "Authorization" c ≠ EmptyString →
  (∀ token, getUserInfoFromToken token = (dummyUser, None)) ∧
  User_ID dummyUser = 1 ∧
  User_Name dummyUser = "John Doe" ∧
  (∀ next, authMiddleware next c w = next (Set_ "userInfo" dummyUser c) w) ∧
  Keys (Set_ "userInfo" dummyUser c) !! "userInfo" = Some dummyUser ∧
  route dU dT clock r c w = h (Set_ "userInfo" dummyUser c) w ∧
  status_of (route dU dT clock r c w).1 ≠ StatusUnauthorized.
Proof.
  intros Hh Htok.
  assert (∀ next, authMiddleware next c w = next (Set_ "userInfo" dummyUser c) w)
    as Hgate.
  { intros next. by destruct (authMiddleware_cases next c w) as [[He _]|[_ ->]]. }
  split; [done|]. split; [done|]. split; [done|]. split; [done|].
  split; [apply lookup_insert_eq|].
  rewrite (route_task dU dT clock r h Hh), Hgate. split; [done|].
  pose proof (task_handler_status dT clock r h (Set_ "userInfo" dummyUser c) w Hh)
    as Hs.
  intros E. rewrite E in Hs. by destruct Hs as [?|[?|[?|?]]].
Qed.

Lemma gate_admits_witness :
  (task_handler Sample.decode_Task Sample.clock GET_tasks_id = Some getTaskByID ∧
   GetHeader "Authorization"
     (new_context (Sample.authorized GET_tasks_id "1" EmptyString "token")) ≠ EmptyString) ∧
  status_of
    (route Sample.decode_User Sample.decode_Task Sample.clock GET_tasks_id
       (new_context (Sample.authorized GET_tasks_id "1" EmptyString "token"))
       Sample.populated).1
  ≠ StatusUnauthorized.
Proof.
  assert (GetHeader "Authorization"
            (new_context (Sample.authorized GET_tasks_id "1" EmptyString "token"))
          ≠ EmptyString) as Htok by (vm_compute; discriminate).
  split; [exact (conj eq_refl Htok)|].
  exact (proj2 (proj2 (proj2 (proj2 (proj2 (proj2
    (gate_admits Sample.decode_User Sample.decode_Task Sample.clock
       GET_tasks_id getTaskByID
       (new_context (Sample.authorized GET_tasks_id "1" EmptyString "token"))
       Sample.populated eq_refl Htok))))))).
Defined.

(** C7. On every task route, a request whose [Authorization] header is
    absent or empty is answered by the gate itself with 401 and the error
    text [Unauthorized: Missing token]; the chain is aborted, the handler
    of the route does not run (the outcome is the same whatever handler is
    behind the gate) and the state, both collections included, is what it
    was. *)
Theorem gate_rejects dU dT clock q w h :
  task_handler dT clock (req_route q) = Some h →
  req_header q !! "Authorization" = None
  ∨ req_header q !! "Authorization" = Some EmptyString →
  serve dU dT clock q w =
    (Abort (JSON StatusUnauthorized (H "error" "Unauthorized: Missing token")
              (new_context q)), w) ∧
  status_of (serve dU dT clock q w).1 = StatusUnauthorized ∧
  (∃ msg, Writer (serve dU dT clock q w).1
          = Some (mkResponse StatusUnauthorized (Some (H "error" msg))) ∧
          contains msg "Missing token") ∧
  aborted (serve dU dT clock q w).1 = true ∧
  users (serve dU dT clock q w).2 = users w ∧
  tasks (serve dU dT clock q w).2 = tasks w ∧
  (∀ next, authMiddleware next (new_context q) w = serve dU dT clock q w).
Proof.
  intros Hh Hhdr.
  assert (GetHeader "Authorization" (new_context q) = EmptyString) as He.
  { unfold GetHeader, new_context. cbn [Header]. by destruct Hhdr as [-> | ->]. }
  assert (∀ next, authMiddleware next (new_context q) w =
            (Abort (JSON StatusUnauthorized (H "error" "Unauthorized: Missing token")
                      (new_context q)), w)) as Hgate.
  { intros next.
    by destruct (authMiddleware_cases next (new_context q) w) as [[_ ->]|[Hne _]]. }
  unfold serve. rewrite (route_task dU dT clock _ h Hh), Hgate. cbn.
  repeat split; try done.
  exists "Unauthorized: Missing token". split; [done|].
  by exists "Unauthorized: ", EmptyString.
Qed.

Lemma gate_rejects_witness :
  (task_handler Sample.decode_Task Sample.clock
     (req_route (Sample.list_tasks_anonymously)) = Some getTasks ∧
   (req_header (Sample.list_tasks_anonymously) !! "Authorization" = None
    ∨ req_header (Sample.list_tasks_anonymously) !! "Authorization"
      = Some EmptyString)) ∧
  status_of (Sample.serve (Sample.list_tasks_anonymously) Sample.populated).1
  = StatusUnauthorized ∧
  (Sample.serve (Sample.list_tasks_anonymously) Sample.populated).2
  = Sample.populated.
Proof.
  split; [exact (conj eq_refl (or_introl eq_refl))|].
  pose proof (gate_rejects Sample.decode_User Sample.decode_Task Sample.clock
                (Sample.list_tasks_anonymously) Sample.populated getTasks
                eq_refl (or_introl eq_refl)) as (Hs & H401 & _).
  split; [exact H401|]. exact (f_equal snd Hs).
Defined.

(** ** Decimal path parameters

    The decimal rendering of an identifier is a path parameter that [Atoi]
    reads back as that identifier. *)

Lemma digit_cases d : 0 ≤ d ≤ 9 →
  d = 0 ∨ d = 1 ∨ d = 2 ∨ d = 3 ∨ d = 4 ∨ d = 5 ∨ d = 6 ∨ d = 7 ∨ d = 8 ∨ d = 9.
Proof. lia. Qed.

Lemma digit_digit_char d :
  0 ≤ d ≤ 9 → strconv.digit (strconv.digit_char d) = Some d.
Proof.
  intros Hd.
  destruct (digit_cases d Hd) as [->|[->|[->|[->|[->|[->|[->|[->|[->| ->]]]]]]]]];
    reflexivity.
Qed.

Lemma digit_char_not_sign d :
  0 ≤ d ≤ 9 →
  Ascii.eqb (strconv.digit_char d) "-"%char
  || Ascii.eqb (strconv.digit_char d) "+"%char = false.
Proof.
  intros Hd.
  destruct (digit_cases d Hd) as [->|[->|[->|[->|[->|[->|[->|[->|[->| ->]]]]]]]]];
    reflexivity.
Qed.

Lemma digits_render fuel : ∀ n acc,
  0 ≤ n < 10 ^ Z.of_nat fuel →
  strconv.digits (strconv.render fuel n acc) 0 = strconv.digits acc n.
Proof.
  induction fuel as [|fuel IH]; intros n acc Hn.
  - cbn in *. by replace n with 0 by lia.
  - cbn [strconv.render].
    assert (0 ≤ n mod 10 ≤ 9) as Hd by (pose proof (Z.mod_pos_bound n 10); lia).
    destruct (Z.ltb_spec n 10) as [Hlt|Hge].
    + cbn [strconv.digits]. rewrite digit_digit_char by done.
      rewrite Z.mod_small by lia. f_equal.
    + rewrite IH.
      * cbn [strconv.digits]. rewrite digit_digit_char by done.
        f_equal. pose proof (Z.div_mod n 10). lia.
      * rewrite Nat2Z.inj_succ, Z.pow_succ_r in Hn by lia.
        split; [apply Z.div_pos; lia|].
        apply Z.div_lt_upper_bound; lia.
Qed.

Lemma render_head fuel : ∀ n acc,
  fuel ≠ O →
  ∃ d rest, 0 ≤ d ≤ 9 ∧ strconv.render fuel n acc = String (strconv.digit_char d) rest.
Proof.
  induction fuel as [|fuel IH]; intros n acc Hf; [done|].
  cbn [strconv.render].
  assert (0 ≤ n mod 10 ≤ 9) as Hd by (pose proof (Z.mod_pos_bound n 10); lia).
  destruct (Z.ltb_spec n 10) as [Hlt|Hge].
  - by exists (n mod 10), acc.
  - destruct fuel as [|fuel].
    + by exists (n mod 10), acc.
    + by apply IH.
Qed.

Lemma Atoi_decimal d rest n :
  0 ≤ d ≤ 9 →
  strconv.digits (String (strconv.digit_char d) rest) 0 = Some n →
  0 ≤ n ≤ GoInt.int_max →
  strconv.Atoi (String (strconv.digit_char d) rest) = (n, None).
Proof.
  intros Hd Hdig Hn. unfold strconv.Atoi.
  pose proof (digit_char_not_sign d Hd) as Hs.
  apply orb_false_iff in Hs as [Hminus Hplus].
  rewrite Hminus, Hplus. cbn [orb]. cbv zeta. rewrite Hdig.
  unfold GoInt.int_min, GoInt.int_max in *.
  destruct (Z.ltb_spec n (- 2 ^ 63)); [lia|].
  destruct (Z.gtb_spec n (2 ^ 63 - 1)); [lia|]. done.
Qed.

Lemma Atoi_Itoa n :
  0 ≤ n ≤ GoInt.int_max → strconv.Atoi (strconv.Itoa n) = (n, None).
Proof.
  intros Hn. unfold strconv.Itoa.
  destruct (render_head 20 n EmptyString) as (d & rest & Hd & Hrender); [done|].
  pose proof (digits_render 20 n EmptyString) as Hdig.
  rewrite Hrender in *. apply Atoi_decimal; [done| |done].
  rewrite Hdig; [done|]. unfold GoInt.int_max in Hn. lia.
Qed.

(** ** Undecodable bodies *)

Lemma Create_bad dU dT clock k c w e :
  decode dU dT k (Body c) = inl e →
  Create dU dT clock k c w = (JSON StatusBadRequest (H "error" e) c, w).
Proof.
  destruct k; intros Hd.
  - exact (createUser_bad _ _ _ _ _ Hd).
  - exact (createTask_bad _ _ _ _ _ Hd).
Qed.

Lemma Update_undecodable_unchanged dU dT clock k c w e :
  decode dU dT k (Body c) = inl e → (Update dU dT clock k c w).2 = w.
Proof.
  intros Hd. destruct (strconv.Atoi (Param "id" c)) as [id err] eqn:HA.
  destruct (range_cases id err (count k w)) as [Hr|[-> Hr]].
  - by rewrite (Update_notfound dU dT clock k c w id err HA Hr).
  - by rewrite (Update_bad dU dT clock k c w id e HA Hr Hd).
Qed.

(** Through the routes, gate included: a create or update request with an
    undecodable body leaves the state as it was. *)
Lemma serve_undecodable dU dT clock k q w e :
  req_route q = create_route k ∨ req_route q = update_route k →
  decode dU dT k (req_body q) = inl e →
  (serve dU dT clock q w).2 = w.
Proof.
  intros Hroute Hd. unfold serve.
  destruct k; destruct Hroute as [-> | ->]; cbn [create_route update_route route].
  - exact (f_equal snd (Create_bad dU dT clock Users (new_context q) w e Hd)).
  - exact (Update_undecodable_unchanged dU dT clock Users (new_context q) w e Hd).
  - destruct (authMiddleware_cases (createTask dT clock) (new_context q) w)
      as [[_ ->]|[_ ->]]; [done|].
    exact (f_equal snd
             (Create_bad dU dT clock Tasks
                (Set_ "userInfo"
                   (getUserInfoFromToken
                      (GetHeader "Authorization" (new_context q))).1
                   (new_context q)) w e Hd)).
  - destruct (authMiddleware_cases (updateTask dT clock) (new_context q) w)
      as [[_ ->]|[_ ->]]; [done|].
    exact (Update_undecodable_unchanged dU dT clock Tasks
             (Set_ "userInfo"
                (getUserInfoFromToken
                   (GetHeader "Authorization" (new_context q))).1
                (new_context q)) w e Hd).
Qed.

(** C8, refuted as stated.  [updateTask] checks the identifier before it
    looks at the body: with an identifier out of range the answer to an
    undecodable body is 404, not 400. *)
Lemma Update_undecodable_out_of_range :
  decode Sample.decode_User Sample.decode_Task Tasks
    (Body (Sample.with_body "1" "garbage")) = inl "invalid character" ∧
  Update Sample.decode_User Sample.decode_Task Sample.clock Tasks
    (Sample.with_body "1" "garbage") init
  = (JSON StatusNotFound (H "error" "Task not found")
       (Sample.with_body "1" "garbage"), init) ∧
  status_of
    (Update Sample.decode_User Sample.decode_Task Sample.clock Tasks
       (Sample.with_body "1" "garbage") init).1
  ≠ StatusBadRequest.
Proof. split; [reflexivity|]. split; [reflexivity|discriminate]. Qed.

(** C8, amended.  On either collection, when the body of a request fails
    to decode: a create request is answered 400 with the decoder's error
    text; an update request whose identifier is in range is answered 400
    with the decoder's error text, and one whose identifier is out of range
    is answered 404; and in all these cases, also when the request comes in
    through the routes and the gate, the state is exactly what it was. *)
Theorem decode_failure dU dT clock k c w e id err :
  decode dU dT k (Body c) = inl e →
  strconv.Atoi (Param "id" c) = (id, err) →
  Create dU dT clock k c w = (JSON StatusBadRequest (H "error" e) c, w) ∧
  (err = None ∧ 1 ≤ id ≤ count k w →
   Update dU dT clock k c w = (JSON StatusBadRequest (H "error" e) c, w)) ∧
  (err ≠ None ∨ id < 1 ∨ id > count k w →
   Update dU dT clock k c w =
     (JSON StatusNotFound (H "error" (noun k +:+ " not found")) c, w)) ∧
  (Update dU dT clock k c w).2 = w ∧
  (∀ q, req_body q = Body c →
        req_route q = create_route k ∨ req_route q = update_route k →
        (serve dU dT clock q w).2 = w).
Proof.
  intros Hd HA.
  split; [by apply Create_bad|].
  split; [intros [-> Hr]; by apply (Update_bad dU dT clock k c w id e)|].
  split; [intros Hr; by apply (Update_notfound dU dT clock k c w id err)|].
  split; [by apply (Update_undecodable_unchanged dU dT clock k c w e)|].
  intros q Hb Hroute. apply (serve_undecodable dU dT clock k q w e Hroute).
  by rewrite Hb.
Qed.

Lemma decode_failure_witness :
  (decode Sample.decode_User Sample.decode_Task Tasks
     (Body (Sample.with_body "1" "garbage")) = inl "invalid character" ∧
   strconv.Atoi (Param "id" (Sample.with_body "1" "garbage")) = (1, None)) ∧
  Create Sample.decode_User Sample.decode_Task Sample.clock Tasks
    (Sample.with_body "1" "garbage") Sample.populated
  = (JSON StatusBadRequest (H "error" "invalid character")
       (Sample.with_body "1" "garbage"), Sample.populated) ∧
  (Update Sample.decode_User Sample.decode_Task Sample.clock Tasks
     (Sample.with_body "1" "garbage") Sample.populated).2 = Sample.populated.
Proof.
  split; [exact (conj eq_refl eq_refl)|].
  pose proof (decode_failure Sample.decode_User Sample.decode_Task Sample.clock
                Tasks (Sample.with_body "1" "garbage") Sample.populated
                "invalid character" 1 None eq_refl eq_refl)
    as (Hc & _ & _ & Hu & _).
  exact (conj Hc Hu).
Defined.

(** ** Create, then look up *)

(** C9. On either collection and in every state, after a create request
    whose body decodes, the lookup by the identifier that the create
    answered (given as any path parameter that [Atoi] reads as that number,
    its decimal rendering being one) answers 200 with the very record that
    was stored, and this record agrees with the decoded payload on every
    field other than the identifier, [CreatedAt] and [UpdatedAt]. *)
Theorem Create_then_Get dU dT clock k c w j c' :
  decode dU dT k (Body c) = inr j →
  count k w < GoInt.int_max →
  strconv.Atoi (Param "id" c') =
    (ident k (created k j (count k w) (clock (reads w)) (clock (S (reads w)))), None) →
  ∃ r,
    r = created k j (count k w) (clock (reads w)) (clock (S (reads w))) ∧
    Create dU dT clock k c w =
      (JSON StatusCreated (render k r) c, (Create dU dT clock k c w).2) ∧
    GetByIdentifier k c' (Create dU dT clock k c w).2 =
      (JSON StatusOK (render k r) c', (Create dU dT clock k c w).2) ∧
    same_content k r (bound k j) ∧
    ident k r = count k w + 1 ∧
    strconv.Atoi (strconv.Itoa (ident k r)) = (ident k r, None).
Proof.
  intros Hd Hlt HA.
  pose proof (count_nonneg k w) as H0.
  destruct (Create_ok dU dT clock k c w j Hd) as (Hc & Hrec & _ & _).
  rewrite ident_created in HA by lia.
  eexists. split; [reflexivity|]. split; [exact Hc|].
  assert (count k (Create dU dT clock k c w).2 = count k w + 1) as Hcount.
  { rewrite <- !records_length, Hrec, length_app. cbn. lia. }
  split.
  { destruct (GetByIdentifier_ok k c' (Create dU dT clock k c w).2
                (count k w + 1) HA) as (r & Hr & ->); [lia|].
    pose proof (records_length k w) as Hl.
    rewrite Hrec in Hr. rewrite lookup_app_r in Hr by lia.
    replace (Z.to_nat (count k w + 1 - 1) - length (records k w))%nat with O in Hr
      by lia.
    by simplify_eq/=. }
  split; [apply same_content_created|].
  rewrite ident_created by lia. split; [done|].
  apply Atoi_Itoa. lia.
Qed.

Lemma Create_then_Get_witness :
  (decode Sample.decode_User Sample.decode_Task Users
     (Body (Sample.body_only "alice"))
   = inr (mkUserJSON None (Some "Alice") (Some "a@x.com") None None) ∧
   count Users Sample.populated < GoInt.int_max ∧
   strconv.Atoi (Param "id" (Sample.by_id "3")) = (3, None)) ∧
  ∃ r,
    GetByIdentifier Users (Sample.by_id "3")
      (Create Sample.decode_User Sample.decode_Task Sample.clock Users
         (Sample.body_only "alice") Sample.populated).2
    = (JSON StatusOK (render Users r) (Sample.by_id "3"),
       (Create Sample.decode_User Sample.decode_Task Sample.clock Users
          (Sample.body_only "alice") Sample.populated).2) ∧
    same_content Users r
      (bound Users (mkUserJSON None (Some "Alice") (Some "a@x.com") None None)).
Proof.
  assert (count Users Sample.populated < GoInt.int_max) as Hlt by reflexivity.
  split; [exact (conj eq_refl (conj Hlt eq_refl))|].
  destruct (Create_then_Get Sample.decode_User Sample.decode_Task Sample.clock
              Users (Sample.body_only "alice") Sample.populated
              (mkUserJSON None (Some "Alice") (Some "a@x.com") None None)
              (Sample.by_id "3") eq_refl Hlt eq_refl)
    as (r & _ & _ & Hget & Hsame & _).
  exists r. exact (conj Hget Hsame).
Defined.

(** ** The password *)

Lemma marshal_User_same_but_Password u1 u2 :
  same_but_Password u1 u2 → marshal_User u1 = marshal_User u2.
Proof.
  intros (Hid & Hname & Hemail & Hc & Hu). unfold marshal_User.
  by rewrite Hid, Hname, Hemail, Hc, Hu.
Qed.

Lemma map_marshal_User_same l1 l2 :
  Forall2 same_but_Password l1 l2 → map marshal_User l1 = map marshal_User l2.
Proof.
  induction 1 as [|u1 u2 l1 l2 Hu _ IH]; [done|].
  cbn [map]. by rewrite (marshal_User_same_but_Password u1 u2 Hu), IH.
Qed.

Lemma same_users_len w1 w2 :
  same_users_but_Password w1 w2 → len (users w1) = len (users w2).
Proof.
  unfold same_users_but_Password, len.
  destruct 1 as [l1 l2 Hl|]; [|done]. cbn. by rewrite (Forall2_length _ _ _ Hl).
Qed.

Lemma same_users_lookup w1 w2 i u1 u2 :
  same_users_but_Password w1 w2 →
  elems (users w1) !! i = Some u1 → elems (users w2) !! i = Some u2 →
  same_but_Password u1 u2.
Proof.
  unfold same_users_but_Password.
  destruct 1 as [l1 l2 Hl|]; cbn; [|done].
  intros H1 H2. by eapply Forall2_lookup_lr.
Qed.

Lemma getUserByID_same_but_Password c w1 w2 :
  same_users_but_Password w1 w2 →
  (getUserByID c w1).1 = (getUserByID c w2).1.
Proof.
  intros Hsame. pose proof (same_users_len w1 w2 Hsame) as Hlen.
  destruct (strconv.Atoi (Param "id" c)) as [id err] eqn:HA.
  destruct (range_cases id err (len (users w1))) as [Hr|[-> Hr]].
  - rewrite (getUserByID_notfound c w1 id err HA Hr).
    rewrite Hlen in Hr. by rewrite (getUserByID_notfound c w2 id err HA Hr).
  - destruct (getUserByID_ok c w1 id HA Hr) as (u1 & Hu1 & ->).
    rewrite Hlen in Hr.
    destruct (getUserByID_ok c w2 id HA Hr) as (u2 & Hu2 & ->).
    cbn [fst]. f_equal. apply marshal_User_same_but_Password.
    by eapply same_users_lookup.
Qed.

Lemma getUsers_same_but_Password c w1 w2 :
  same_users_but_Password w1 w2 → (getUsers c w1).1 = (getUsers c w2).1.
Proof.
  unfold same_users_but_Password, getUsers. cbn [fst].
  destruct 1 as [l1 l2 Hl|]; [|done]. cbn [marshal_slice].
  by rewrite (map_marshal_User_same l1 l2 Hl).
Qed.

(** C10. The wire form of a [User] has the members [id], [name], [email],
    [created_at] and [updated_at] and no other; two users that differ in
    the password only are serialized to the same document, and the answers
    of the lookup and of the listing do not change when the passwords in
    the store do.  The decoder never binds the password, and every user in
    a state the process can reach has the empty password. *)
Theorem Password_never_on_the_wire :
  (∀ u, member_names (marshal_User u)
        = ["id"; "name"; "email"; "created_at"; "updated_at"]) ∧
  (∀ u1 u2, same_but_Password u1 u2 → marshal_User u1 = marshal_User u2) ∧
  (∀ u p, marshal_User (User_set_Password p u) = marshal_User u) ∧
  (∀ c w1 w2, same_users_but_Password w1 w2 →
     (getUserByID c w1).1 = (getUserByID c w2).1 ∧
     (getUsers c w1).1 = (getUsers c w2).1) ∧
  (∀ j u, User_Password (unmarshal_User j u) = User_Password u) ∧
  (∀ dU dT clock w, reachable dU dT clock w → Password_empty w).
Proof.
  split; [done|].
  split; [apply marshal_User_same_but_Password|].
  split; [done|].
  split.
  { intros c w1 w2 Hsame. split.
    - by apply getUserByID_same_but_Password.
    - by apply getUsers_same_but_Password. }
  split; [done|].
  intros dU dT clock w. apply reachable_Password_empty.
Qed.

(** ** Identifiers after a deletion *)

(** C1, evaluated on the code.  Two users are created (identifiers 1 and
    2), the first is deleted, a third is created: [createUser] assigns
    [len(users) + 1 = 2] again, and the collection holds two records with
    identifier 2. *)
Theorem identifier_reused :
  map (ident Users)
    (records Users
       (Sample.run [Sample.post_user "alice";
                    Sample.post_user "bob";
                    Sample.delete_user "1";
                    Sample.post_user "alice"] init))
  = [2; 2] ∧
  ¬ NoDup
      (map (ident Users)
         (records Users
            (Sample.run [Sample.post_user "alice";
                         Sample.post_user "bob";
                         Sample.delete_user "1";
                         Sample.post_user "alice"] init))) ∧
  reachable Sample.decode_User Sample.decode_Task Sample.clock
    (Sample.run [Sample.post_user "alice";
                 Sample.post_user "bob";
                 Sample.delete_user "1";
                 Sample.post_user "alice"] init).
Proof.
  assert (map (ident Users)
            (records Users
               (Sample.run [Sample.post_user "alice";
                            Sample.post_user "bob";
                            Sample.delete_user "1";
                            Sample.post_user "alice"] init))
          = [2; 2]) as Hids by reflexivity.
  split; [exact Hids|]. split.
  - rewrite Hids. intros Hnd. apply NoDup_cons in Hnd as [Hnotin _].
    apply Hnotin. by left.
  - apply run_reachable. constructor.
Qed.

(** * Further properties of the handlers and the routes *)

(** ** Operations and routes *)

Lemma Delete_notfound k c w id err :
  strconv.Atoi (Param "id" c) = (id, err) →
  err ≠ None ∨ id < 1 ∨ id > count k w →
  Delete k c w = (JSON StatusNotFound (H "error" (noun k +:+ " not found")) c, w).
Proof.
  destruct k; intros HA Hr.
  - exact (deleteUser_notfound _ _ _ _ HA Hr).
  - exact (deleteTask_notfound _ _ _ _ HA Hr).
Qed.

Lemma Delete_ok k c w id :
  strconv.Atoi (Param "id" c) = (id, None) →
  1 ≤ id ≤ count k w →
  Delete k c w =
    (JSON StatusOK (H "message" (noun k +:+ " deleted")) c, (Delete k c w).2) ∧
  records k (Delete k c w).2 =
    take (Z.to_nat (id - 1)) (records k w) ++ drop (Z.to_nat id) (records k w) ∧
  ¬ is_nil k (Delete k c w).2 ∧
  untouched k w (Delete k c w).2 ∧
  reads (Delete k c w).2 = reads w.
Proof.
  destruct k; intros HA Hr; cbn [Delete records count untouched is_nil] in *.
  - by rewrite (deleteUser_ok _ _ _ HA Hr).
  - by rewrite (deleteTask_ok _ _ _ HA Hr).
Qed.

Lemma List_eq k c w : List k c w = (JSON StatusOK (listing k w) c, w).
Proof. by destruct k. Qed.

Lemma untouched_refl k w : untouched k w w.
Proof. by destruct k. Qed.

Lemma untouched_records k w w' :
  untouched k w w' → records (other k) w' = records (other k) w.
Proof. destruct k; cbn; by intros ->. Qed.

Lemma route_operation dU dT clock r :
  route dU dT clock r =
    match collection_of r with
    | Users => operation dU dT clock Users (operation_of r)
    | Tasks => authMiddleware (operation dU dT clock Tasks (operation_of r))
    end.
Proof. by destruct r. Qed.

(** The answer of an operation is a JSON document with status 200, 201,
    400 or 404; with 400 or 404 the state is what it was, and the other
    collection is never touched. *)
Lemma operation_outcome dU dT clock k op c w :
  untouched k w (operation dU dT clock k op c w).2 ∧
  ∃ code doc,
    (operation dU dT clock k op c w).1 = JSON code doc c ∧
    ((code = StatusBadRequest ∨ code = StatusNotFound) ∧
     (operation dU dT clock k op c w).2 = w
     ∨ code = StatusOK ∨ code = StatusCreated).
Proof.
  destruct op; cbn [operation].
  - destruct (decode dU dT k (Body c)) as [e|j] eqn:Hd.
    + rewrite (Create_bad dU dT clock k c w e Hd). split; [apply untouched_refl|].
      eexists _, _. split; [done|]. left. by split; [left|].
    + destruct (Create_ok dU dT clock k c w j Hd) as (-> & _ & Hun & _).
      split; [done|]. eexists _, _. split; [done|]. by right; right.
  - rewrite List_eq. split; [apply untouched_refl|].
    eexists _, _. split; [done|]. by right; left.
  - destruct (strconv.Atoi (Param "id" c)) as [id err] eqn:HA.
    destruct (range_cases id err (count k w)) as [Hr|[-> Hr]].
    + rewrite (GetByIdentifier_notfound k c w id err HA Hr).
      split; [apply untouched_refl|].
      eexists _, _. split; [done|]. left. by split; [right|].
    + destruct (GetByIdentifier_ok k c w id HA Hr) as (r & _ & ->).
      split; [apply untouched_refl|].
      eexists _, _. split; [done|]. by right; left.
  - destruct (strconv.Atoi (Param "id" c)) as [id err] eqn:HA.
    destruct (range_cases id err (count k w)) as [Hr|[-> Hr]].
    + rewrite (Update_notfound dU dT clock k c w id err HA Hr).
      split; [apply untouched_refl|].
      eexists _, _. split; [done|]. left. by split; [right|].
    + destruct (decode dU dT k (Body c)) as [e|j] eqn:Hd.
      * rewrite (Update_bad dU dT clock k c w id e HA Hr Hd).
        split; [apply untouched_refl|].
        eexists _, _. split; [done|]. left. by split; [left|].
      * destruct (Update_ok dU dT clock k c w id j HA Hr Hd)
          as (old & _ & -> & _ & Hun).
        split; [done|]. eexists _, _. split; [done|]. by right; left.
  - destruct (strconv.Atoi (Param "id" c)) as [id err] eqn:HA.
    destruct (range_cases id err (count k w)) as [Hr|[-> Hr]].
    + rewrite (Delete_notfound k c w id err HA Hr).
      split; [apply untouched_refl|].
      eexists _, _. split; [done|]. left. by split; [right|].
    + destruct (Delete_ok k c w id HA Hr) as (-> & _ & _ & Hun & _).
      split; [done|]. eexists _, _. split; [done|]. by right; left.
Qed.

(** The task routes either stop at the gate with 401, the state as it
    was, or run the operation on the context with the identity attached. *)
Lemma serve_cases dU dT clock q w :
  match collection_of (req_route q) with
  | Users =>
      serve dU dT clock q w =
        operation dU dT clock Users (operation_of (req_route q)) (new_context q) w
  | Tasks =>
      (GetHeader "Authorization" (new_context q) = EmptyString ∧
       serve dU dT clock q w =
         (Abort (JSON StatusUnauthorized (H "error" "Unauthorized: Missing token")
                   (new_context q)), w))
      ∨ (GetHeader "Authorization" (new_context q) ≠ EmptyString ∧
         serve dU dT clock q w =
           operation dU dT clock Tasks (operation_of (req_route q))
             (Set_ "userInfo" dummyUser (new_context q)) w)
  end.
Proof.
  unfold serve. rewrite route_operation.
  destruct (collection_of (req_route q)); [done|].
  destruct (authMiddleware_cases
              (operation dU dT clock Tasks (operation_of (req_route q)))
              (new_context q) w) as [[He ->]|[Hne ->]].
  - by left.
  - by right.
Qed.


(** X2. The two collections do not interfere: a request on a user route
    leaves the task slice as it was, and a request on a task route leaves
    the user slice as it was, whatever the request carries. *)
Theorem routes_independent dU dT clock q w :
  untouched (collection_of (req_route q)) w (serve dU dT clock q w).2.
Proof.
  pose proof (serve_cases dU dT clock q w) as Hs.
  destruct (collection_of (req_route q)).
  - rewrite Hs. apply operation_outcome.
  - destruct Hs as [[_ ->]|[_ ->]].
    + done.
    + apply operation_outcome.
Qed.

(** ** What the handlers read from a request *)

(** The handlers read the path parameters and the body of a request and
    nothing else: not the headers, not the key/value store of the
    context. *)
Lemma operation_same_request dU dT clock k op c1 c2 w :
  Params c1 = Params c2 → Body c1 = Body c2 →
  (operation dU dT clock k op c1 w).2 = (operation dU dT clock k op c2 w).2 ∧
  Writer (operation dU dT clock k op c1 w).1
  = Writer (operation dU dT clock k op c2 w).1.
Proof.
  intros HP HB.
  destruct op, k;
    cbn [operation Create List GetByIdentifier Update Delete];
    unfold createUser, createTask, getUsers, getTasks, getUserByID, getTaskByID,
      updateUser, updateTask, deleteUser, deleteTask,
      ShouldBindJSON_User, ShouldBindJSON_Task, Param;
    rewrite ?HP, ?HB; repeat case_match; done.
Qed.

Lemma new_context_same q1 q2 :
  same_but_headers q1 q2 →
  Params (new_context q1) = Params (new_context q2) ∧
  Body (new_context q1) = Body (new_context q2).
Proof. intros (Hr & Hi & Hb). unfold new_context. cbn. by rewrite Hr, Hi, Hb. Qed.

Lemma has_token_GetHeader q :
  has_token q → GetHeader "Authorization" (new_context q) ≠ EmptyString.
Proof. intros (token & Hh & Hne). unfold GetHeader, new_context. cbn. by rewrite Hh. Qed.

(** X3. The user routes need no credential: two requests on a user route
    that differ in their headers only, whether an [Authorization] header is
    there or not, get the same answer and leave the same state. *)
Theorem user_routes_ignore_headers dU dT clock q1 q2 w :
  collection_of (req_route q1) = Users →
  same_but_headers q1 q2 →
  (serve dU dT clock q1 w).2 = (serve dU dT clock q2 w).2 ∧
  Writer (serve dU dT clock q1 w).1 = Writer (serve dU dT clock q2 w).1.
Proof.
  intros Hk Hsame.
  pose proof (serve_cases dU dT clock q1 w) as H1.
  pose proof (serve_cases dU dT clock q2 w) as H2.
  destruct (new_context_same q1 q2 Hsame) as [HP HB].
  destruct Hsame as (Hr & _ & _). rewrite <- Hr in H2. rewrite Hk in H1, H2.
  rewrite H1, H2. by apply operation_same_request.
Qed.

Lemma user_routes_ignore_headers_witness :
  (collection_of (req_route (Sample.authorized GET_users_id "2" EmptyString "secret"))
   = Users ∧
   same_but_headers (Sample.authorized GET_users_id "2" EmptyString "secret")
     (Sample.request GET_users_id "2" EmptyString)) ∧
  Writer (Sample.serve (Sample.authorized GET_users_id "2" EmptyString "secret")
            Sample.populated).1
  = Writer (Sample.serve (Sample.request GET_users_id "2" EmptyString)
              Sample.populated).1.
Proof.
  split; [exact (conj eq_refl (conj eq_refl (conj eq_refl eq_refl)))|].
  exact (proj2 (user_routes_ignore_headers Sample.decode_User Sample.decode_Task
                  Sample.clock
                  (Sample.authorized GET_users_id "2" EmptyString "secret")
                  (Sample.request GET_users_id "2" EmptyString)
                  Sample.populated eq_refl
                  (conj eq_refl (conj eq_refl eq_refl)))).
Defined.

(** X4. On the task routes the token is only tested for being non-empty:
    two requests that differ in their headers only and both carry some
    token get the same answer and leave the same state.  The identity the
    gate attaches is never looked at, so every token gives access to every
    task. *)
Theorem task_routes_ignore_token_value dU dT clock q1 q2 w :
  collection_of (req_route q1) = Tasks →
  same_but_headers q1 q2 →
  has_token q1 → has_token q2 →
  (serve dU dT clock q1 w).2 = (serve dU dT clock q2 w).2 ∧
  Writer (serve dU dT clock q1 w).1 = Writer (serve dU dT clock q2 w).1.
Proof.
  intros Hk Hsame Ht1 Ht2.
  pose proof (serve_cases dU dT clock q1 w) as H1.
  pose proof (serve_cases dU dT clock q2 w) as H2.
  destruct (new_context_same q1 q2 Hsame) as [HP HB].
  destruct Hsame as (Hr & _ & _). rewrite <- Hr in H2. rewrite Hk in H1, H2.
  apply has_token_GetHeader in Ht1, Ht2.
  destruct H1 as [[He _]|[_ ->]]; [done|].
  destruct H2 as [[He _]|[_ ->]]; [done|].
  by apply operation_same_request.
Qed.

Lemma task_routes_ignore_token_value_witness :
  (collection_of (req_route (Sample.authorized PUT_tasks_id "1" "dishes" "alice-token"))
   = Tasks ∧
   same_but_headers (Sample.authorized PUT_tasks_id "1" "dishes" "alice-token")
     (Sample.authorized PUT_tasks_id "1" "dishes" "mallory-token") ∧
   has_token (Sample.authorized PUT_tasks_id "1" "dishes" "alice-token") ∧
   has_token (Sample.authorized PUT_tasks_id "1" "dishes" "mallory-token")) ∧
  (Sample.serve (Sample.authorized PUT_tasks_id "1" "dishes" "alice-token")
     Sample.populated).2
  = (Sample.serve (Sample.authorized PUT_tasks_id "1" "dishes" "mallory-token")
       Sample.populated).2.
Proof.
  assert (has_token (Sample.authorized PUT_tasks_id "1" "dishes" "alice-token"))
    as Ht1 by (exists "alice-token"; split; [reflexivity|discriminate]).
  assert (has_token (Sample.authorized PUT_tasks_id "1" "dishes" "mallory-token"))
    as Ht2 by (exists "mallory-token"; split; [reflexivity|discriminate]).
  split.
  - exact (conj eq_refl (conj (conj eq_refl (conj eq_refl eq_refl)) (conj Ht1 Ht2))).
  - exact (proj1 (task_routes_ignore_token_value Sample.decode_User
                    Sample.decode_Task Sample.clock
                    (Sample.authorized PUT_tasks_id "1" "dishes" "alice-token")
                    (Sample.authorized PUT_tasks_id "1" "dishes" "mallory-token")
                    Sample.populated eq_refl
                    (conj eq_refl (conj eq_refl eq_refl)) Ht1 Ht2)).
Defined.

(** ** Listing *)

Lemma effect_not_nil clock k w w' :
  effect clock w w' → ¬ is_nil k w → ¬ is_nil k w'.
Proof. intros He Hn. destruct He, k; cbn in *; done. Qed.

(** X5. The list handler answers 200 with the whole collection and leaves
    the state alone.  The document is [null] as long as the slice is nil,
    as it is at program start, and the array of the serialized records in
    stored order otherwise.  A successful create makes the slice non-nil
    and no request makes it nil again, so once something has been created
    the answer is an array, also after every record has been deleted. *)
Theorem List_answers dU dT clock k c w :
  List k c w = (JSON StatusOK (listing k w) c, w) ∧
  is_nil k init ∧
  (is_nil k w → listing k w = JNull ∧ records k w = []) ∧
  (¬ is_nil k w → listing k w = JArray (map (render k) (records k w))) ∧
  (∀ c' j, decode dU dT k (Body c') = inr j →
           ¬ is_nil k (Create dU dT clock k c' w).2) ∧
  (∀ q, ¬ is_nil k w → ¬ is_nil k (serve dU dT clock q w).2).
Proof.
  split; [apply List_eq|]. split; [by destruct k|].
  split; [destruct k; cbn; by intros ->|].
  split.
  { destruct k; cbn.
    - by destruct (users w).
    - by destruct (tasks w). }
  split.
  - intros c' j Hd. destruct k; cbn [Create decode is_nil] in *.
    + by rewrite (createUser_ok _ _ _ _ _ Hd).
    + by rewrite (createTask_ok _ _ _ _ _ Hd).
  - intros q. apply (effect_not_nil clock). apply serve_effect.
Qed.

(** ** The range check of the three handlers that take an identifier *)

(** X6. Lookup, update and delete agree on which identifiers exist: for
    the same path parameter and state, one of them answers 404 exactly when
    the others do, and then update and delete leave the state as it
    was. *)
Theorem ByID_handlers_agree dU dT clock k c w :
  (status_of (GetByIdentifier k c w).1 = StatusNotFound
     ↔ status_of (Update dU dT clock k c w).1 = StatusNotFound) ∧
  (status_of (GetByIdentifier k c w).1 = StatusNotFound
     ↔ status_of (Delete k c w).1 = StatusNotFound) ∧
  (status_of (GetByIdentifier k c w).1 = StatusNotFound →
   Update dU dT clock k c w =
     (JSON StatusNotFound (H "error" (noun k +:+ " not found")) c, w) ∧
   Delete k c w =
     (JSON StatusNotFound (H "error" (noun k +:+ " not found")) c, w)).
Proof.
  destruct (strconv.Atoi (Param "id" c)) as [id err] eqn:HA.
  destruct (range_cases id err (count k w)) as [Hr|[-> Hr]].
  - rewrite (GetByIdentifier_notfound k c w id err HA Hr),
      (Update_notfound dU dT clock k c w id err HA Hr),
      (Delete_notfound k c w id err HA Hr). done.
  - destruct (GetByIdentifier_ok k c w id HA Hr) as (r & _ & ->).
    destruct (Delete_ok k c w id HA Hr) as (-> & _).
    destruct (decode dU dT k (Body c)) as [e|j] eqn:Hd.
    + rewrite (Update_bad dU dT clock k c w id e HA Hr Hd). cbn.
      split; [split; intros [=]|]. split; [split; intros [=]|]. intros [=].
    + destruct (Update_ok dU dT clock k c w id j HA Hr Hd) as (old & _ & -> & _).
      cbn. split; [split; intros [=]|]. split; [split; intros [=]|]. intros [=].
Qed.

(** ** Identifiers and positions *)

Lemma lookup_map {A B} (f : A → B) (l : list A) (i : nat) :
  map f l !! i = f <$> l !! i.
Proof. revert i. induction l as [|x l IH]; intros [|i]; cbn; auto. Qed.

Lemma ident_updated k j id old now :
  0 ≤ id ≤ GoInt.uint_max → ident k (updated k j id old now) = id.
Proof.
  intros Hid. assert (GoInt.uint id = id) as H' by by apply wrap_uint_id.
  destruct k; exact H'.
Qed.

Lemma aligned_NoDup k w : aligned k w → NoDup (map (ident k) (records k w)).
Proof.
  intros Hal. apply NoDup_alt. intros i i' x.
  rewrite !lookup_map. intros Hi Hi'.
  destruct (records k w !! i) as [r|] eqn:Hr; [|done].
  destruct (records k w !! i') as [r'|] eqn:Hr'; [|done].
  cbn in Hi, Hi'. simplify_eq.
  apply Hal in Hr, Hr'. lia.
Qed.

(** What an operation other than delete does to the records of its
    collection: nothing, an append, or an overwrite in place. *)
Lemma operation_records dU dT clock k op c w :
  op ≠ OpDelete →
  records k (operation dU dT clock k op c w).2 = records k w
  ∨ (∃ j now1 now2,
       records k (operation dU dT clock k op c w).2 =
         records k w ++ [created k j (count k w) now1 now2])
  ∨ (∃ j id old now,
       1 ≤ id ≤ count k w ∧
       records k (operation dU dT clock k op c w).2 =
         <[Z.to_nat (id - 1) := updated k j id old now]> (records k w)).
Proof.
  intros Hop. destruct op; cbn [operation]; [| | | |done].
  - destruct (decode dU dT k (Body c)) as [e|j] eqn:Hd.
    + rewrite (Create_bad dU dT clock k c w e Hd). by left.
    + destruct (Create_ok dU dT clock k c w j Hd) as (_ & Hrec & _).
      right; left. by eexists _, _, _.
  - rewrite List_eq. by left.
  - destruct (strconv.Atoi (Param "id" c)) as [id err] eqn:HA.
    destruct (range_cases id err (count k w)) as [Hr|[-> Hr]].
    + rewrite (GetByIdentifier_notfound k c w id err HA Hr). by left.
    + destruct (GetByIdentifier_ok k c w id HA Hr) as (r & _ & ->). by left.
  - destruct (strconv.Atoi (Param "id" c)) as [id err] eqn:HA.
    destruct (range_cases id err (count k w)) as [Hr|[-> Hr]].
    + rewrite (Update_notfound dU dT clock k c w id err HA Hr). by left.
    + destruct (decode dU dT k (Body c)) as [e|j] eqn:Hd.
      * rewrite (Update_bad dU dT clock k c w id e HA Hr Hd). by left.
      * destruct (Update_ok dU dT clock k c w id j HA Hr Hd)
          as (old & _ & _ & Hrec & _).
        right; right. by eexists _, _, _, _.
Qed.

Lemma serve_records dU dT clock k q w :
  not_a_delete q →
  records k (serve dU dT clock q w).2 = records k w
  ∨ (∃ j now1 now2,
       records k (serve dU dT clock q w).2 =
         records k w ++ [created k j (count k w) now1 now2])
  ∨ (∃ j id old now,
       1 ≤ id ≤ count k w ∧
       records k (serve dU dT clock q w).2 =
         <[Z.to_nat (id - 1) := updated k j id old now]> (records k w)).
Proof.
  intros Hq. unfold not_a_delete in Hq.
  pose proof (serve_cases dU dT clock q w) as Hs.
  assert (∀ c, records (other (collection_of (req_route q)))
                 (operation dU dT clock (collection_of (req_route q))
                    (operation_of (req_route q)) c w).2
               = records (other (collection_of (req_route q))) w) as Hother.
  { intros c. apply untouched_records, operation_outcome. }
  destruct k, (collection_of (req_route q)) eqn:Hk; cbn [other] in Hother.
  - rewrite Hs. by apply operation_records.
  - destruct Hs as [[_ ->]|[_ ->]]; [by left|]. left. apply Hother.
  - rewrite Hs. left. apply Hother.
  - destruct Hs as [[_ ->]|[_ ->]]; [by left|]. by apply operation_records.
Qed.

Lemma run_aligned dU dT clock k qs : ∀ w,
  Forall not_a_delete qs →
  aligned k w →
  count k w + Z.of_nat (length qs) ≤ GoInt.int_max →
  aligned k (run dU dT clock qs w).
Proof.
  induction qs as [|q qs IH]; intros w Hqs Hal Hlen; [done|].
  apply Forall_cons in Hqs as [Hq Hqs]. cbn [run length] in *.
  pose proof (count_nonneg k w) as H0.
  pose proof (records_length k w) as Hl.
  pose proof (records_length k (serve dU dT clock q w).2) as Hl'.
  apply IH; [done| |].
  - unfold aligned in *.
    destruct (serve_records dU dT clock k q w Hq)
      as [->|[(j & t1 & t2 & ->)|(j & id & old & t & Hid & ->)]]; [done| |].
    + intros i r Hi. apply lookup_app_Some in Hi as [Hi|[Hge Hi]]; [by apply Hal|].
      apply list_lookup_singleton_Some in Hi as [Hi <-].
      rewrite ident_created by lia. lia.
    + intros i r Hi. apply list_lookup_insert_Some in Hi as [(<- & <- & _)|[_ Hi]].
      * rewrite ident_updated; [lia|].
        unfold GoInt.uint_max, GoInt.int_max in *. lia.
      * by apply Hal.
  - destruct (serve_records dU dT clock k q w Hq)
      as [Hrec|[(j & t1 & t2 & Hrec)|(j & id & old & t & Hid & Hrec)]];
      rewrite Hrec in Hl'.
    + lia.
    + rewrite length_app in Hl'. cbn in Hl'. lia.
    + rewrite length_insert in Hl'. lia.
Qed.

(** X7. As long as nothing is deleted, identifiers are sound: after any
    sequence of requests on any routes other than the two delete routes,
    starting from the empty store, every record of either collection
    carries its position plus one as identifier, so no two records of a
    collection share an identifier. *)
Theorem identifiers_unique_without_delete dU dT clock k qs :
  Forall not_a_delete qs →
  Z.of_nat (length qs) ≤ GoInt.int_max →
  aligned k (run dU dT clock qs init) ∧
  NoDup (map (ident k) (records k (run dU dT clock qs init))).
Proof.
  intros Hqs Hlen.
  assert (aligned k (run dU dT clock qs init)) as Hal.
  { apply run_aligned; [done| |].
    - intros i r Hi. by destruct k.
    - assert (count k init = 0) as -> by (by destruct k). lia. }
  split; [done|]. by apply aligned_NoDup.
Qed.

Lemma identifiers_unique_without_delete_witness :
  (Forall not_a_delete
     [Sample.post_user "alice"; Sample.post_task "laundry";
      Sample.post_user "bob"; Sample.request PUT_users_id "1" "empty";
      Sample.request GET_users EmptyString EmptyString] ∧
   Z.of_nat 5 ≤ GoInt.int_max) ∧
  NoDup (map (ident Users)
           (records Users
              (Sample.run
                 [Sample.post_user "alice"; Sample.post_task "laundry";
                  Sample.post_user "bob"; Sample.request PUT_users_id "1" "empty";
                  Sample.request GET_users EmptyString EmptyString] init))).
Proof.
  assert (Forall not_a_delete
            [Sample.post_user "alice"; Sample.post_task "laundry";
             Sample.post_user "bob"; Sample.request PUT_users_id "1" "empty";
             Sample.request GET_users EmptyString EmptyString]) as Hqs.
  { repeat first [ apply Forall_nil_2 | apply Forall_cons_2; [discriminate|] ]. }
  assert (Z.of_nat 5 ≤ GoInt.int_max) as Hn by (vm_compute; discriminate).
  split; [exact (conj Hqs Hn)|].
  exact (proj2 (identifiers_unique_without_delete Sample.decode_User
                  Sample.decode_Task Sample.clock Users _ Hqs Hn)).
Defined.

(** X8. What a delete does to the identifiers behind it.  In a collection
    whose records carry their position plus one as identifier, after the
    record [id] has been deleted the lookup of every identifier from [id]
    up to the new length succeeds, but answers with a record whose own
    identifier is one larger than the one asked for; the lookup of the old
    length is answered 404. *)
Theorem Delete_shifts_identifiers k c w id :
  aligned k w →
  strconv.Atoi (Param "id" c) = (id, None) →
  1 ≤ id ≤ count k w →
  (∀ c' id',
     strconv.Atoi (Param "id" c') = (id', None) →
     id ≤ id' < count k w →
     ∃ r, GetByIdentifier k c' (Delete k c w).2 =
            (JSON StatusOK (render k r) c', (Delete k c w).2) ∧
          ident k r = id' + 1) ∧
  (∀ c' err',
     strconv.Atoi (Param "id" c') = (count k w, err') →
     GetByIdentifier k c' (Delete k c w).2 =
       (JSON StatusNotFound (H "error" (noun k +:+ " not found")) c',
        (Delete k c w).2)).
Proof.
  intros Hal HA Hr.
  destruct (Delete_ok k c w id HA Hr) as (_ & Hrec & _).
  pose proof (records_length k w) as Hl.
  pose proof (records_length k (Delete k c w).2) as Hl'.
  assert (count k (Delete k c w).2 = count k w - 1) as Hcount.
  { rewrite Hrec, length_app, length_take, length_drop in Hl'. lia. }
  split.
  - intros c' id' HA' Hid'.
    destruct (GetByIdentifier_ok k c' (Delete k c w).2 id' HA') as (r & Hlook & ->);
      [lia|].
    exists r. split; [done|].
    rewrite Hrec in Hlook.
    rewrite lookup_app_r in Hlook by (rewrite length_take; lia).
    rewrite lookup_drop, length_take in Hlook.
    apply Hal in Hlook. rewrite Hlook. lia.
  - intros c' err' HA'.
    apply (GetByIdentifier_notfound k c' (Delete k c w).2 (count k w) err' HA').
    right; right. lia.
Qed.

Lemma Sample_populated_aligned : aligned Users Sample.populated.
Proof.
  intros [|[|i]] r; cbn; intros [= <-]; reflexivity.
Qed.

Lemma Delete_shifts_identifiers_witness :
  (aligned Users Sample.populated ∧
   strconv.Atoi (Param "id" (Sample.by_id "1")) = (1, None) ∧
   1 ≤ 1 ≤ count Users Sample.populated) ∧
  ∃ r, GetByIdentifier Users (Sample.by_id "1")
         (Delete Users (Sample.by_id "1") Sample.populated).2
       = (JSON StatusOK (render Users r) (Sample.by_id "1"),
          (Delete Users (Sample.by_id "1") Sample.populated).2) ∧
       ident Users r = 1 + 1.
Proof.
  assert (1 ≤ 1 ≤ count Users Sample.populated) as Hr
    by (vm_compute; split; discriminate).
  split; [exact (conj Sample_populated_aligned (conj eq_refl Hr))|].
  destruct (Delete_shifts_identifiers Users (Sample.by_id "1") Sample.populated 1
              Sample_populated_aligned eq_refl Hr) as [Hshift _].
  apply (Hshift (Sample.by_id "1") 1 eq_refl).
  vm_compute. split; [discriminate|reflexivity].
Defined.

(** ** Create, then delete *)

(** X9. Deleting the record that was just created undoes the create on
    the records: after a create whose body decodes, the delete of the
    identifier it answered is answered 200 and the collection holds exactly
    the records it held before.  The slice is then empty rather than nil if
    it was nil before. *)
Theorem Create_then_Delete dU dT clock k c w j c' :
  decode dU dT k (Body c) = inr j →
  count k w < GoInt.int_max →
  strconv.Atoi (Param "id" c') = (count k w + 1, None) →
  status_of (Delete k c' (Create dU dT clock k c w).2).1 = StatusOK ∧
  records k (Delete k c' (Create dU dT clock k c w).2).2 = records k w ∧
  untouched k w (Delete k c' (Create dU dT clock k c w).2).2 ∧
  ¬ is_nil k (Delete k c' (Create dU dT clock k c w).2).2.
Proof.
  intros Hd Hlt HA.
  destruct (Create_ok dU dT clock k c w j Hd) as (_ & Hrec & Hun & _).
  pose proof (records_length k w) as Hl.
  pose proof (records_length k (Create dU dT clock k c w).2) as Hl'.
  assert (count k (Create dU dT clock k c w).2 = count k w + 1) as Hcount.
  { rewrite Hrec, length_app in Hl'. cbn in Hl'. lia. }
  destruct (Delete_ok k c' (Create dU dT clock k c w).2 (count k w + 1) HA)
    as (Hres & Hrec' & Hnil & Hun' & _); [lia|].
  split; [by rewrite Hres|]. split; [|split; [|done]].
  - rewrite Hrec', Hrec.
    replace (Z.to_nat (count k w + 1 - 1)) with (length (records k w)) by lia.
    replace (Z.to_nat (count k w + 1)) with (length (records k w ++ [created k j (count k w) (clock (reads w)) (clock (S (reads w)))]))
      by (rewrite length_app; cbn; lia).
    rewrite take_app_length, drop_all. apply app_nil_r.
  - destruct k; cbn in *; congruence.
Qed.

Lemma Create_then_Delete_witness :
  (decode Sample.decode_User Sample.decode_Task Tasks
     (Body (Sample.body_only "dishes"))
   = inr (mkTaskJSON (Some 9) None (Some "Dishes") None (Some "done") None None) ∧
   count Tasks init < GoInt.int_max ∧
   strconv.Atoi (Param "id" (Sample.by_id "1")) = (count Tasks init + 1, None)) ∧
  records Tasks
    (Delete Tasks (Sample.by_id "1")
       (Create Sample.decode_User Sample.decode_Task Sample.clock Tasks
          (Sample.body_only "dishes") init).2).2
  = records Tasks init ∧
  ¬ is_nil Tasks
      (Delete Tasks (Sample.by_id "1")
         (Create Sample.decode_User Sample.decode_Task Sample.clock Tasks
            (Sample.body_only "dishes") init).2).2.
Proof.
  assert (count Tasks init < GoInt.int_max) as Hlt by reflexivity.
  split; [exact (conj eq_refl (conj Hlt eq_refl))|].
  pose proof (Create_then_Delete Sample.decode_User Sample.decode_Task Sample.clock
                Tasks (Sample.body_only "dishes") init _ (Sample.by_id "1")
                eq_refl Hlt eq_refl) as (_ & Hrec & _ & Hnil).
  exact (conj Hrec Hnil).
Defined.

(** ** What the handlers take from the body *)

(** X10. The identifier and the timestamps a client puts into the body of
    a create or update request are not used: two bodies that decode to
    objects with the same remaining members, sent with the same path
    parameters, get the same answer and leave the same state. *)
Theorem client_id_and_timestamps_ignored dU dT clock k c1 c2 w j1 j2 :
  decode dU dT k (Body c1) = inr j1 →
  decode dU dT k (Body c2) = inr j2 →
  same_members k j1 j2 →
  Params c1 = Params c2 →
  (Create dU dT clock k c1 w).2 = (Create dU dT clock k c2 w).2 ∧
  Writer (Create dU dT clock k c1 w).1 = Writer (Create dU dT clock k c2 w).1 ∧
  (Update dU dT clock k c1 w).2 = (Update dU dT clock k c2 w).2 ∧
  Writer (Update dU dT clock k c1 w).1 = Writer (Update dU dT clock k c2 w).1.
Proof.
  intros Hd1 Hd2 Hsame HP.
  destruct k; cbn [decode Create Update same_members payload] in *;
    unfold createUser, createTask, updateUser, updateTask,
      ShouldBindJSON_User, ShouldBindJSON_Task, Param;
    rewrite Hd1, Hd2, HP; destruct j1, j2; cbn in Hsame;
    destruct_and!; simplify_eq;
    unfold User_set_UpdatedAt, User_set_CreatedAt, User_set_ID, unmarshal_User,
      Task_set_UpdatedAt, Task_set_CreatedAt, Task_set_ID, unmarshal_Task;
    cbn;
    (split; [done|]); (split; [done|]);
    repeat case_match; done.
Qed.



Lemma client_id_and_timestamps_ignored_witness :
  (decode Scenario.decode_User Sample.decode_Task Users
     (Body (Sample.with_body "2" "bob"))
   = inr (mkUserJSON (Some 7) (Some "Bob") None None (Some 5)) ∧
   decode Scenario.decode_User Sample.decode_Task Users
     (Body (Sample.with_body "2" "bob, forged"))
   = inr (mkUserJSON (Some 1) (Some "Bob") None (Some 1) (Some 9999)) ∧
   same_members Users (mkUserJSON (Some 7) (Some "Bob") None None (Some 5))
     (mkUserJSON (Some 1) (Some "Bob") None (Some 1) (Some 9999)) ∧
   Params (Sample.with_body "2" "bob") = Params (Sample.with_body "2" "bob, forged")) ∧
  (Update Scenario.decode_User Sample.decode_Task Sample.clock Users
     (Sample.with_body "2" "bob") Sample.populated).2
  = (Update Scenario.decode_User Sample.decode_Task Sample.clock Users
       (Sample.with_body "2" "bob, forged") Sample.populated).2.
Proof.
  split; [exact (conj eq_refl (conj eq_refl (conj (conj eq_refl eq_refl) eq_refl)))|].
  pose proof (client_id_and_timestamps_ignored Scenario.decode_User
                Sample.decode_Task Sample.clock Users
                (Sample.with_body "2" "bob") (Sample.with_body "2" "bob, forged")
                Sample.populated _ _ eq_refl eq_refl
                (conj eq_refl eq_refl) eq_refl) as (_ & _ & Hu & _).
  exact Hu.
Defined.

(** ** Timestamps *)

Lemma effect_chronological clock w w' :
  effect clock w w' → chronological clock w → chronological clock w'.
Proof.
  intros He [Hu Ht]. unfold chronological.
  assert (∀ n m (l : list User), (n ≤ m)%nat →
    Forall (λ u, ∃ i a, (i ≤ a < n)%nat ∧
                        User_CreatedAt u = clock i ∧ User_UpdatedAt u = clock a) l →
    Forall (λ u, ∃ i a, (i ≤ a < m)%nat ∧
                        User_CreatedAt u = clock i ∧ User_UpdatedAt u = clock a) l)
    as HwU.
  { intros n m l Hnm HF. eapply Forall_impl; [exact HF|].
    intros u (i & a & Hi & Hc & Hu'). exists i, a. split; [lia|done]. }
  assert (∀ n m (l : list Task), (n ≤ m)%nat →
    Forall (λ t, ∃ i a, (i ≤ a < n)%nat ∧
                        Task_CreatedAt t = clock i ∧ Task_UpdatedAt t = clock a) l →
    Forall (λ t, ∃ i a, (i ≤ a < m)%nat ∧
                        Task_CreatedAt t = clock i ∧ Task_UpdatedAt t = clock a) l)
    as HwT.
  { intros n m l Hnm HF. eapply Forall_impl; [exact HF|].
    intros t (i & a & Hi & Hc & Ht'). exists i, a. split; [lia|done]. }
  destruct He as [|j|j id old Hid Hold|id Hid|j|j id old Hid Hold|id Hid]; simpl.
  - done.
  - split; [|by apply (HwT (reads w)); [lia|]].
    apply Forall_app. split; [by apply (HwU (reads w)); [lia|]|].
    apply Forall_singleton. exists (reads w), (S (reads w)). split; [lia|done].
  - split; [|by apply (HwT (reads w)); [lia|]].
    apply Forall_insert; [by apply (HwU (reads w)); [lia|]|].
    destruct (proj1 (Forall_lookup _ _) Hu _ _ Hold) as (i & a & Hi & Hc & _).
    exists i, (reads w). split; [lia|done].
  - split; [|done]. apply Forall_app. split.
    + by apply Forall_take.
    + by apply Forall_drop.
  - split; [by apply (HwU (reads w)); [lia|]|].
    apply Forall_app. split; [by apply (HwT (reads w)); [lia|]|].
    apply Forall_singleton. exists (reads w), (S (reads w)). split; [lia|done].
  - split; [by apply (HwU (reads w)); [lia|]|].
    apply Forall_insert; [by apply (HwT (reads w)); [lia|]|].
    destruct (proj1 (Forall_lookup _ _) Ht _ _ Hold) as (i & a & Hi & Hc & _).
    exists i, (reads w). split; [lia|done].
  - split; [done|]. apply Forall_app. split.
    + by apply Forall_take.
    + by apply Forall_drop.
Qed.

(** X11. In every state the process can reach, both timestamps of every
    record of either collection are readings of the process clock (never
    values from a request body), the reading for [CreatedAt] taken no later
    than the one for [UpdatedAt]; with a clock that never runs backwards,
    no record was updated before it was created. *)
Theorem timestamps_chronological dU dT clock k w r :
  monotone clock →
  reachable dU dT clock w →
  r ∈ records k w →
  (∃ i n, (i ≤ n < reads w)%nat ∧
          created_at k r = clock i ∧ updated_at k r = clock n) ∧
  created_at k r ≤ updated_at k r.
Proof.
  intros Hmono Hreach Hin.
  assert (chronological clock w) as [Hu Ht].
  { apply (reachable_effect_ind dU dT clock (chronological clock));
      [split; constructor|apply effect_chronological|exact Hreach]. }
  assert (∃ i n, (i ≤ n < reads w)%nat ∧
                 created_at k r = clock i ∧ updated_at k r = clock n)
    as (i & n & Hi & Hc & Hup).
  { destruct k; cbn [records created_at updated_at] in *.
    - by apply (proj1 (Forall_forall _ _) Hu).
    - by apply (proj1 (Forall_forall _ _) Ht). }
  split; [by exists i, n|]. rewrite Hc, Hup. apply Hmono. lia.
Qed.

Lemma timestamps_chronological_witness :
  (monotone Sample.clock ∧
   reachable Sample.decode_User Sample.decode_Task Sample.clock Sample.populated ∧
   mkTask 2 0 "Dishes" EmptyString "done" 1006 1007 ∈ records Tasks Sample.populated) ∧
  created_at Tasks (mkTask 2 0 "Dishes" EmptyString "done" 1006 1007)
  ≤ updated_at Tasks (mkTask 2 0 "Dishes" EmptyString "done" 1006 1007).
Proof.
  assert (mkTask 2 0 "Dishes" EmptyString "done" 1006 1007
          ∈ records Tasks Sample.populated) as Hin.
  { apply (list_elem_of_lookup_2 _ 1%nat). reflexivity. }
  split; [exact (conj Sample_clock_monotone (conj Sample_populated_reachable Hin))|].
  exact (proj2 (timestamps_chronological Sample.decode_User Sample.decode_Task
                  Sample.clock Tasks Sample.populated _
                  Sample_clock_monotone Sample_populated_reachable Hin)).
Defined.

(** ** Update, then look up *)

(** X12. After an update of an identifier in range with a body that
    decodes, the lookup of the same identifier answers with the very
    document the update answered, the identifier in it is the one that was
    addressed (whatever identifier the replaced record carried), and the
    collection has the length it had. *)
Theorem Update_then_Get dU dT clock k c w id j c' :
  strconv.Atoi (Param "id" c) = (id, None) →
  1 ≤ id ≤ count k w →
  decode dU dT k (Body c) = inr j →
  strconv.Atoi (Param "id" c') = (id, None) →
  ∃ r,
    Update dU dT clock k c w =
      (JSON StatusOK (render k r) c, (Update dU dT clock k c w).2) ∧
    GetByIdentifier k c' (Update dU dT clock k c w).2 =
      (JSON StatusOK (render k r) c', (Update dU dT clock k c w).2) ∧
    ident k r = id ∧
    count k (Update dU dT clock k c w).2 = count k w.
Proof.
  intros HA Hr Hd HA'.
  destruct (Update_ok dU dT clock k c w id j HA Hr Hd) as (old & Hold & Hres & Hrec & _).
  pose proof (records_length k w) as Hl.
  pose proof (records_length k (Update dU dT clock k c w).2) as Hl'.
  assert (count k (Update dU dT clock k c w).2 = count k w) as Hcount.
  { rewrite Hrec, length_insert in Hl'. lia. }
  exists (updated k j id old (clock (reads w))).
  split; [done|]. split; [|split; [|done]].
  - destruct (GetByIdentifier_ok k c' (Update dU dT clock k c w).2 id HA')
      as (r & Hlook & ->); [lia|].
    rewrite Hrec in Hlook. rewrite list_lookup_insert_eq in Hlook by lia.
    by simplify_eq.
  - apply ident_updated. apply Atoi_in_int in HA.
    unfold GoInt.in_int, GoInt.int_min, GoInt.int_max, GoInt.uint_max in *. lia.
Qed.

Lemma Update_then_Get_witness :
  (strconv.Atoi (Param "id" (Sample.with_body "1" "dishes")) = (1, None) ∧
   1 ≤ 1 ≤ count Tasks Sample.populated ∧
   decode Sample.decode_User Sample.decode_Task Tasks
     (Body (Sample.with_body "1" "dishes"))
   = inr (mkTaskJSON (Some 9) None (Some "Dishes") None (Some "done") None None) ∧
   strconv.Atoi (Param "id" (Sample.by_id "+01")) = (1, None)) ∧
  ∃ r,
    GetByIdentifier Tasks (Sample.by_id "+01")
      (Update Sample.decode_User Sample.decode_Task Sample.clock Tasks
         (Sample.with_body "1" "dishes") Sample.populated).2
    = (JSON StatusOK (render Tasks r) (Sample.by_id "+01"),
       (Update Sample.decode_User Sample.decode_Task Sample.clock Tasks
          (Sample.with_body "1" "dishes") Sample.populated).2) ∧
    ident Tasks r = 1.
Proof.
  assert (1 ≤ 1 ≤ count Tasks Sample.populated) as Hr
    by (vm_compute; split; discriminate).
  split; [exact (conj eq_refl (conj Hr (conj eq_refl eq_refl)))|].
  destruct (Update_then_Get Sample.decode_User Sample.decode_Task Sample.clock
              Tasks (Sample.with_body "1" "dishes") Sample.populated 1 _
              (Sample.by_id "+01") eq_refl Hr eq_refl eq_refl)
    as (r & _ & Hget & Hid & _).
  exists r. exact (conj Hget Hid).
Defined.

(** ** No references between the collections *)

Lemma operation_same_collection dU dT clock k op c w1 w2 :
  same_collection k w1 w2 →
  Writer (operation dU dT clock k op c w1).1
  = Writer (operation dU dT clock k op c w2).1 ∧
  same_collection k (operation dU dT clock k op c w1).2
                    (operation dU dT clock k op c w2).2.
Proof.
  intros [Hs Hr]. destruct w1 as [us1 ts1 n1], w2 as [us2 ts2 n2].
  destruct op, k; cbn in Hs, Hr; subst;
    cbn [operation Create List GetByIdentifier Update Delete];
    unfold createUser, createTask, getUsers, getTasks, getUserByID, getTaskByID,
      updateUser, updateTask, deleteUser, deleteTask, time_Now, set_users, set_tasks;
    cbn [users tasks reads];
    repeat case_match; simplify_eq; done.
Qed.

(** X13. Nothing ties the two collections together: the answer of a
    request on a route of one collection, and what it does to that
    collection, do not depend on what the other collection holds.  In
    particular a task is stored and served whatever users exist, its
    [user_id] is never checked against them, and deleting a user changes
    nothing for the tasks that name it. *)
Theorem no_referential_integrity dU dT clock q w1 w2 :
  same_collection (collection_of (req_route q)) w1 w2 →
  Writer (serve dU dT clock q w1).1 = Writer (serve dU dT clock q w2).1 ∧
  same_collection (collection_of (req_route q))
    (serve dU dT clock q w1).2 (serve dU dT clock q w2).2.
Proof.
  intros Hsame.
  pose proof (serve_cases dU dT clock q w1) as H1.
  pose proof (serve_cases dU dT clock q w2) as H2.
  destruct (collection_of (req_route q)).
  - rewrite H1, H2. by apply operation_same_collection.
  - destruct H1 as [[He1 ->]|[Hne1 ->]], H2 as [[He2 ->]|[Hne2 ->]]; try done.
    by apply operation_same_collection.
Qed.

Lemma no_referential_integrity_witness :
  same_collection
    (collection_of (req_route (Sample.authorized GET_tasks_id "1" EmptyString "token")))
    Sample.populated
    (Sample.run [Sample.delete_user "1"; Sample.delete_user "1"] Sample.populated) ∧
  Writer (Sample.serve (Sample.authorized GET_tasks_id "1" EmptyString "token")
            Sample.populated).1
  = Writer (Sample.serve (Sample.authorized GET_tasks_id "1" EmptyString "token")
              (Sample.run [Sample.delete_user "1"; Sample.delete_user "1"]
                 Sample.populated)).1.
Proof.
  split; [exact (conj eq_refl eq_refl)|].
  exact (proj1 (no_referential_integrity Sample.decode_User Sample.decode_Task
                  Sample.clock (Sample.authorized GET_tasks_id "1" EmptyString "token")
                  Sample.populated
                  (Sample.run [Sample.delete_user "1"; Sample.delete_user "1"]
                     Sample.populated)
                  (conj eq_refl eq_refl))).
Defined.
